(** * Shallow embedding of [src/backend/server.py] (digital_twin backend)

    The FastAPI service keeps one conversation log per session, either
    in a local directory ([MEMORY_DIR]) or in an S3 bucket ([USE_S3]),
    and relays chat turns to Bedrock's [converse] call.

    Modelling choices:
    - the process's outside world (local file system, the S3 bucket,
      wall clock, uuid generator, Bedrock) is an explicit [World] threaded
      through a small state-and-exception monad [M];
    - a JSON document written by [json.dump(v, f, indent=n)] is kept as
      the pair (n, v): [json.load] maps it back to [v];
    - file paths are resolved lexically, as the kernel does when there are
      no symbolic links: "" and "." components are skipped, ".." goes to the
      parent directory;
    - every call the code makes to the outside world that a claim is about
      is recorded in a trace of [Event]s. *)

From Stdlib Require Import Ascii.
From stdpp Require Import base gmap strings list pretty.

Local Open Scope Z_scope.

(** ** Data model *)

(** A timestamp is the naive local date-time returned by
    [datetime.now()]; the code stores its [isoformat()], which parses back
    to the same date-time, so the model keeps the date-time itself
    (microseconds of local wall-clock time). *)
Definition Timestamp := Z.

(** [class Message(BaseModel)]: the dicts stored in a conversation log. *)
Record Message := mkMessage {
  role : string;
  content : string;
  timestamp : Timestamp
}.

(** [class ChatRequest(BaseModel)]. *)
Record ChatRequest := mkChatRequest {
  message : string;
  session_id : option string
}.

(** [class ChatResponse(BaseModel)]. *)
Record ChatResponse := mkChatResponse {
  response : string;
  resp_session_id : string
}.

(** A Bedrock [converse] message: a role and a list of [{"text": ...}]
    content blocks. *)
Record BMsg := mkBMsg {
  b_role : string;
  b_content : list string
}.

(** The text written by [json.dump(value, f, indent=doc_indent)]. *)
Record Doc := mkDoc {
  doc_indent : nat;
  doc_value : list Message
}.

(** Exceptions the code raises or catches. *)
Inductive Exn :=
  (** [botocore.exceptions.ClientError], with its [Error.Code] and [str(e)] *)
  | EClient (code : string) (text : string)
  (** [fastapi.HTTPException(status_code, detail)] *)
  | EHTTP (status : Z) (detail : string)
  (** any other exception (OSError, KeyError, ...), with [str(e)] *)
  | EOther (text : string).

(** [str(e)]; Starlette renders an [HTTPException] as
    ["{status_code}: {detail}"]. *)
Definition exn_str (e : Exn) : string :=
  match e with
  | EClient _ t => t
  | EHTTP s d => pretty s +:+ ": " +:+ d
  | EOther t => t
  end.

(** ** Paths *)

(** A resolved path: its components from the root directory. *)
Abbreviation Path := (list string).

(** [s.split("/")] *)
Fixpoint split_slash (s : string) : list string :=
  match s with
  | EmptyString => [""]
  | String c rest =>
      let parts := split_slash rest in
      if Ascii.eqb c "/" then "" :: parts
      else match parts with
           | p :: ps => String c p :: ps
           | [] => [String c EmptyString]
           end
  end.

(** [s.startswith("/")] *)
Definition starts_with_slash (s : string) : bool :=
  match s with
  | String c _ => Ascii.eqb c "/"
  | EmptyString => false
  end.

(** [s.endswith("/")] *)
Fixpoint ends_with_slash (s : string) : bool :=
  match s with
  | EmptyString => false
  | String c EmptyString => Ascii.eqb c "/"
  | String _ rest => ends_with_slash rest
  end.

(** [posixpath.join(a, b)] for two arguments. *)
Definition os_path_join (a b : string) : string :=
  if starts_with_slash b then b
  else if String.eqb a "" || ends_with_slash a then a +:+ b
  else a +:+ "/" +:+ b.

(** One component of path resolution. *)
Definition path_step (cur : Path) (c : string) : Path :=
  if String.eqb c "" || String.eqb c "." then cur
  else if String.eqb c ".." then removelast cur
  else cur ++ [c].

(** The kernel's resolution of a path string against the working
    directory [cwd]. *)
Definition resolve (cwd : Path) (p : string) : Path :=
  fold_left path_step (split_slash p)
    (if starts_with_slash p then [] else cwd).

(** ** The world *)

Inductive Event :=
  | EvConverse (messages : list BMsg)   (** [bedrock_client.converse(...)] *)
  | EvWrite (p : Path)                  (** [open(p, "w")] then [json.dump] *)
  | EvPut (key : string).               (** [s3_client.put_object(Key=key)] *)

Record World := mkWorld {
  w_dirs : gset Path;               (** directories of the file system *)
  w_files : gmap Path Doc;          (** regular files and their JSON text *)
  w_s3 : gmap string Doc;           (** objects of the bucket [S3_BUCKET] *)
  w_trace : list Event;             (** calls made so far, oldest first *)
  w_clock_reads : nat;              (** calls to [datetime.now()] so far *)
  w_uuid_reads : nat                (** calls to [uuid.uuid4()] so far *)
}.

(** Configuration read at import time, and the behaviour of the outside
    services. *)
Record Env := mkEnv {
  USE_S3 : bool;
  MEMORY_DIR : string;
  cwd : Path;                                 (** the process's working directory *)
  prompt_text : string;                       (** [context.prompt()] *)
  converse : list BMsg -> Exn + string;       (** Bedrock: reply text or the exception *)
  clock : nat -> Timestamp;                   (** the n-th reading of [datetime.now()] *)
  uuid4 : nat -> string                       (** [str(uuid.uuid4())] at its n-th call *)
}.

(** ** A state and exception monad *)

Inductive res (A : Type) :=
  | Ok (a : A)
  | Raise (e : Exn).
Arguments Ok {A} a.
Arguments Raise {A} e.

Definition M (A : Type) := World -> res A * World.

Definition ret {A} (a : A) : M A := fun w => (Ok a, w).
Definition raise {A} (e : Exn) : M A := fun w => (Raise e, w).
Definition bind {A B} (m : M A) (k : A -> M B) : M B :=
  fun w => match m w with
           | (Ok a, w') => k a w'
           | (Raise e, w') => (Raise e, w')
           end.
(** [try: m except e: h(e)] *)
Definition try_except {A} (m : M A) (h : Exn -> M A) : M A :=
  fun w => match m w with
           | (Raise e, w') => h e w'
           | r => r
           end.

Notation "'let*' x := m 'in' k" := (bind m (fun x => k))
  (at level 200, x binder, m at level 100, k at level 200).

Definition set_dirs (d : gset Path) (w : World) : World :=
  mkWorld d (w_files w) (w_s3 w) (w_trace w) (w_clock_reads w) (w_uuid_reads w).
Definition set_files (f : gmap Path Doc) (w : World) : World :=
  mkWorld (w_dirs w) f (w_s3 w) (w_trace w) (w_clock_reads w) (w_uuid_reads w).
Definition set_s3 (b : gmap string Doc) (w : World) : World :=
  mkWorld (w_dirs w) (w_files w) b (w_trace w) (w_clock_reads w) (w_uuid_reads w).
Definition emit (ev : Event) : M unit := fun w =>
  (Ok tt, mkWorld (w_dirs w) (w_files w) (w_s3 w) (w_trace w ++ [ev])
                  (w_clock_reads w) (w_uuid_reads w)).

(** The status code of the HTTP response FastAPI sends for an endpoint's
    outcome: 200 on a return, the [status_code] of an [HTTPException], and
    500 for any other exception. *)
Definition http_status {A} (r : res A) : Z :=
  match r with
  | Ok _ => 200
  | Raise (EHTTP s _) => s
  | Raise _ => 500
  end.

(** The JSON body of [GET /conversation/{session_id}]. *)
Record ConversationView := mkConversationView {
  cv_session_id : string;
  cv_messages : list Message
}.

Section Server.
Context (env : Env).

(** ** The outside world's operations *)

Definition is_dir (w : World) (p : Path) : bool :=
  bool_decide (p = []) || bool_decide (p ∈ w_dirs w).

Definition is_file (w : World) (p : Path) : bool :=
  match w_files w !! p with Some _ => true | None => false end.

(** [os.path.exists(path)] *)
Definition os_path_exists (path : string) : M bool := fun w =>
  let p := resolve (cwd env) path in
  (Ok (is_dir w p || is_file w p), w).

(** [with open(path, "r") as f: return json.load(f)]; the error text is
    the exception's class name. *)
Definition open_read_json (path : string) : M (list Message) := fun w =>
  let p := resolve (cwd env) path in
  if is_dir w p then (Raise (EOther "IsADirectoryError"), w)
  else match w_files w !! p with
       | Some d => (Ok (doc_value d), w)
       | None => (Raise (EOther "FileNotFoundError"), w)
       end.

(** [with open(path, "w") as f: json.dump(d, f, indent=...)]: the file is
    created or truncated, and needs an existing parent directory. Only the
    failures of [open] are modelled: a failure of [json.dump] or of the
    close (disk full, I/O error), which leaves the truncated file empty or
    partial, is not. The error text is the exception's class name. *)
Definition open_write_json (path : string) (d : Doc) : M unit := fun w =>
  let p := resolve (cwd env) path in
  if is_dir w p then (Raise (EOther "IsADirectoryError"), w)
  else if negb (is_dir w (removelast p)) then (Raise (EOther "FileNotFoundError"), w)
  else emit (EvWrite p) (set_files (<[p := d]> (w_files w)) w).

(** The directories [os.makedirs] creates, walking the components of the
    path; [None] when a component is an existing regular file. *)
Fixpoint mkdirs_walk (files : gmap Path Doc) (cur : Path) (cs : list string)
    (ds : gset Path) : option (gset Path) :=
  match cs with
  | [] => Some ds
  | c :: rest =>
      let nxt := path_step cur c in
      if String.eqb c "" || String.eqb c "." || String.eqb c ".." then
        mkdirs_walk files nxt rest ds
      else match files !! nxt with
           | Some _ => None
           | None => mkdirs_walk files nxt rest ({[nxt]} ∪ ds)
           end
  end.

(** [os.makedirs(name, exist_ok=True)] *)
Definition os_makedirs (name : string) : M unit := fun w =>
  if String.eqb name "" then (Raise (EOther "FileNotFoundError"), w)
  else match mkdirs_walk (w_files w) (if starts_with_slash name then [] else cwd env)
                         (split_slash name) (w_dirs w) with
       | Some ds => (Ok tt, set_dirs ds w)
       | None => (Raise (EOther "FileExistsError"), w)
       end.

(** [json.loads(s3_client.get_object(Bucket=S3_BUCKET, Key=key)["Body"]...)] *)
Definition s3_get_object (key : string) : M (list Message) := fun w =>
  match w_s3 w !! key with
  | Some d => (Ok (doc_value d), w)
  | None => (Raise (EClient "NoSuchKey"
      "An error occurred (NoSuchKey) when calling the GetObject operation: The specified key does not exist."), w)
  end.

(** [s3_client.put_object(Bucket=S3_BUCKET, Key=key, Body=json.dumps(...))] *)
Definition s3_put_object (key : string) (d : Doc) : M unit := fun w =>
  emit (EvPut key) (set_s3 (<[key := d]> (w_s3 w)) w).

(** [datetime.now()] *)
Definition datetime_now : M Timestamp := fun w =>
  (Ok (clock env (w_clock_reads w)),
   mkWorld (w_dirs w) (w_files w) (w_s3 w) (w_trace w)
           (S (w_clock_reads w)) (w_uuid_reads w)).

(** [str(uuid.uuid4())] *)
Definition uuid_uuid4 : M string := fun w =>
  (Ok (uuid4 env (w_uuid_reads w)),
   mkWorld (w_dirs w) (w_files w) (w_s3 w) (w_trace w)
           (w_clock_reads w) (S (w_uuid_reads w))).

(** [bedrock_client.converse(...)] followed by
    [response["output"]["message"]["content"][0]["text"]]. *)
Definition bedrock_converse (messages : list BMsg) : M string :=
  let* _ := emit (EvConverse messages) in
  match converse env messages with
  | inl e => raise e
  | inr t => ret t
  end.

(** ** server.py *)

(** [get_memory_path] *)
Definition get_memory_path (sid : string) : string := sid +:+ ".json".

(** [load_conversation] *)
Definition load_conversation (sid : string) : M (list Message) :=
  if USE_S3 env then
    try_except (s3_get_object (get_memory_path sid))
      (fun e => match e with
                | EClient code _ => if String.eqb code "NoSuchKey" then ret [] else raise e
                | _ => raise e
                end)
  else
    let file_path := os_path_join (MEMORY_DIR env) (get_memory_path sid) in
    let* ex := os_path_exists file_path in
    if ex then open_read_json file_path else ret [].

(** [save_conversation] *)
Definition save_conversation (sid : string) (messages : list Message) : M unit :=
  if USE_S3 env then s3_put_object (get_memory_path sid) (mkDoc 2 messages)
  else
    let* _ := os_makedirs (MEMORY_DIR env) in
    let file_path := os_path_join (MEMORY_DIR env) (get_memory_path sid) in
    open_write_json file_path (mkDoc 2 messages).

(** [l[-k:]] for [k > 0]. *)
Definition py_slice_last {A} (k : nat) (l : list A) : list A :=
  drop (length l - k) l.

(** The system prompt, sent as a user message. *)
Definition system_entry : BMsg :=
  mkBMsg "user" ["System: " +:+ prompt_text env].

Definition to_bmsg (m : Message) : BMsg := mkBMsg (role m) [content m].

(** The [messages] list [call_bedrock] builds. *)
Definition build_messages (conversation : list Message) (user_message : string)
    : list BMsg :=
  [system_entry] ++ map to_bmsg (py_slice_last 20 conversation)
    ++ [mkBMsg "user" [user_message]].

(** [call_bedrock] *)
Definition call_bedrock (conversation : list Message) (user_message : string)
    : M string :=
  let messages := build_messages conversation user_message in
  try_except (bedrock_converse messages)
    (fun e => match e with
       | EClient code t =>
           if String.eqb code "ValidationException" then
             raise (EHTTP 400 "Invalid message format for Bedrock")
           else if String.eqb code "AccessDeniedException" then
             raise (EHTTP 403 "Access denied to Bedrock model")
           else raise (EHTTP 500 ("Bedrock error: " +:+ t))
       | _ => raise e
       end).

(** [request.session_id or str(uuid.uuid4())]: [None] and [""] are falsy. *)
Definition resolve_session_id (o : option string) : M string :=
  match o with
  | Some s => if String.eqb s "" then uuid_uuid4 else ret s
  | None => uuid_uuid4
  end.

(** [POST /chat] *)
Definition chat (request : ChatRequest) : M ChatResponse :=
  try_except (
    let* sid := resolve_session_id (session_id request) in
    let* conversation := load_conversation sid in
    let* assistant_response := call_bedrock conversation (message request) in
    let* t1 := datetime_now in
    let conversation := conversation ++ [mkMessage "user" (message request) t1] in
    let* t2 := datetime_now in
    let conversation := conversation ++ [mkMessage "assistant" assistant_response t2] in
    let* _ := save_conversation sid conversation in
    ret (mkChatResponse assistant_response sid))
  (fun e => match e with
            | EHTTP _ _ => raise e
            | _ => raise (EHTTP 500 (exn_str e))
            end).

(** [GET /conversation/{session_id}] *)
Definition get_conversation (sid : string) : M ConversationView :=
  try_except (let* c := load_conversation sid in ret (mkConversationView sid c))
    (fun e => raise (EHTTP 500 (exn_str e))).

End Server.

(** ** Observations used by the properties *)

(** [s] contains no ["/"]. *)
Fixpoint no_slash (s : string) : bool :=
  match s with
  | EmptyString => true
  | String c rest => negb (Ascii.eqb c "/") && no_slash rest
  end.

(** The stored record of a session: the object with key [{sid}.json] in
    the bucket, or the file at [os.path.join(MEMORY_DIR, f"{sid}.json")]. *)
Definition record_of (env : Env) (w : World) (sid : string) : option Doc :=
  if USE_S3 env then w_s3 w !! get_memory_path sid
  else w_files w !! resolve (cwd env) (os_path_join (MEMORY_DIR env) (get_memory_path sid)).

(** ** Concrete configurations *)

(** A Bedrock that always answers ["Hello!"]. *)
Definition demo_reply (ms : list BMsg) : Exn + string := inr "Hello!".

(** A Bedrock that always raises the given [ClientError]. *)
Definition demo_client_error (code : string) (ms : list BMsg) : Exn + string :=
  inl (EClient code ("An error occurred (" +:+ code +:+ ") when calling the Converse operation")).

(** 2023-11-14T22:13:20 local time, in microseconds. *)
Definition t0 : Timestamp := 1700000000000000.

(** A wall clock advancing one microsecond per reading. *)
Definition steady_clock (n : nat) : Timestamp := t0 + Z.of_nat n.

(** A wall clock set back by one hour after its first reading, as local
    time is at the end of daylight saving time. *)
Definition setback_clock (n : nat) : Timestamp :=
  match n with
  | O => t0
  | S _ => t0 - 3600000000 + Z.of_nat n
  end.

(** The default configuration: [MEMORY_DIR = "../memory"], run from
    [/app]. *)
Definition demo_env (use_s3 : bool) (conv : list BMsg -> Exn + string)
    (clk : nat -> Timestamp) : Env :=
  mkEnv use_s3 "../memory" ["app"] "You are a digital twin." conv clk
        (fun n => "uuid-" +:+ pretty n).

(** A fresh machine: the directories [/app] and [/tmp], nothing stored. *)
Definition demo_world : World := mkWorld {[ ["app"]; ["tmp"] ]} ∅ ∅ [] 0 0.

Definition demo_msg (i : nat) : Message :=
  mkMessage (if Nat.even i then "user" else "assistant") ("m" +:+ pretty i) (steady_clock i).

Definition demo_log (n : nat) : list Message := map demo_msg (seq 0 n).

(** A machine whose [/memory/{sid}.json] holds [log]. *)
Definition world_with_log (sid : string) (log : list Message) : World :=
  mkWorld {[ ["app"]; ["memory"] ]} {[ ["memory"; sid +:+ ".json"] := mkDoc 2 log ]} ∅ [] 0 0.

Definition req_hi (sid : option string) : ChatRequest := mkChatRequest "hi" sid.

(** The configurations and machines the witnesses run on. *)
Definition env_local : Env := demo_env false demo_reply steady_clock.
Definition env_denied : Env :=
  demo_env false (demo_client_error "AccessDeniedException") steady_clock.
Definition env_invalid_s3 : Env :=
  demo_env true (demo_client_error "ValidationException") steady_clock.
Definition world25 : World := world_with_log "s1" (demo_log 25).
Definition world25_after : World := snd (chat env_local (req_hi (Some "s1")) world25).
Definition world_saved : World := snd (save_conversation env_local "s1" (demo_log 2) demo_world).

(** Machines for the further properties of [server.py]. *)

(** [/memory/d.json] is a directory. *)
Definition world_dir_session : World :=
  mkWorld {[ ["app"]; ["memory"]; ["memory"; "d.json"] ]} ∅ ∅ [] 0 0.

(** A turn on session ["sub/x"]: the directory [/memory/sub] does not
    exist. *)
Definition world_lost_turn : World := snd (chat env_local (req_hi (Some "sub/x")) demo_world).

(** A first turn without a session id. *)
Definition world_fresh_after : World := snd (chat env_local (req_hi None) demo_world).

(** * Shallow embedding of [src/backend/deploy.py]

    [main] builds the Lambda package. The model tracks the paths, relative
    to the working directory, that [main] tests or creates, and records
    each call it makes to the outside world; the files that [pip] writes
    into [lambda-package] are not tracked, as [main] only reads them back
    through [os.walk] when it writes the zip. *)

Module Deploy.

(** Calls [main] makes to the outside world. *)
Inductive DEvent :=
  | DRun (argv : list string)             (** [subprocess.run(argv, ...)] *)
  | DRmtree (p : string)                  (** [shutil.rmtree(p)] *)
  | DRemove (p : string)                  (** [os.remove(p)] *)
  | DMakedirs (p : string)                (** [os.makedirs(p)] *)
  | DCopy (src dst : string)              (** [shutil.copy2(src, dst)] *)
  | DCopytree (src dst : string)          (** [shutil.copytree(src, dst)] *)
  | DZip (name dir : string).             (** [zipfile.ZipFile(name, "w")] filled from [os.walk(dir)] *)

(** Exceptions raised while [main] runs. *)
Inductive DExn :=
  | CalledProcessError (argv : list string) (returncode : Z)
  | FileNotFoundError (name : string)
  | PermissionError (name : string)
  | FileExistsError (name : string).

(** The machine [main] runs on. *)
Record DEnv := mkDEnv {
  run_status : list string -> option Z;  (** exit status of a command; [None]: executable not found *)
  rmtree_allowed : bool;                 (** [shutil.rmtree] may delete [lambda-package] *)
  getuid : option Z;                     (** [os.getuid()]; [None] where [os] has no [getuid] *)
  getcwd : string;                       (** [os.getcwd()] *)
  executable : string;                   (** [sys.executable] *)
  machine : string                       (** [platform.machine()] *)
}.

Record DState := mkDState {
  d_paths : gset string;     (** existing paths, as [main] names them *)
  d_trace : list DEvent      (** calls made so far, oldest first *)
}.

Inductive dres (A : Type) :=
  | DOk (a : A)
  | DRaise (e : DExn).
Arguments DOk {A} a.
Arguments DRaise {A} e.

Definition DM (A : Type) := DState -> dres A * DState.

Definition dret {A} (a : A) : DM A := fun s => (DOk a, s).
Definition draise {A} (e : DExn) : DM A := fun s => (DRaise e, s).
Definition dbind {A B} (m : DM A) (k : A -> DM B) : DM B :=
  fun s => match m s with
           | (DOk a, s') => k a s'
           | (DRaise e, s') => (DRaise e, s')
           end.
(** [try: m except e: h(e)] *)
Definition dtry {A} (m : DM A) (h : DExn -> DM A) : DM A :=
  fun s => match m s with
           | (DRaise e, s') => h e s'
           | r => r
           end.

Local Notation "'let+' x := m 'in' k" := (dbind m (fun x => k))
  (at level 200, x binder, m at level 100, k at level 200).

Definition record (ev : DEvent) (P : gset string) : DM unit := fun s =>
  (DOk tt, mkDState P (d_trace s ++ [ev])).

(** [p] and everything below it removed. *)
Definition remove_tree (q : string) (P : gset string) : gset string :=
  filter (fun p => p <> q /\ String.prefix (q +:+ "/") p = false) P.

(** How a command that exits with status 0 changes the tracked paths:
    [sudo rm -rf q] removes [q]; the other commands [main] runs only write
    below [lambda-package]. *)
Definition command_effect (argv : list string) (P : gset string) : gset string :=
  match argv with
  | [c; o1; o2; q] =>
      if String.eqb c "sudo" && String.eqb o1 "rm" && String.eqb o2 "-rf"
      then remove_tree q P else P
  | _ => P
  end.

Section Main.
Context (env : DEnv).

(** [os.path.exists(p)] *)
Definition os_path_exists (p : string) : DM bool := fun s =>
  (DOk (bool_decide (p ∈ d_paths s)), s).

(** [subprocess.run(argv, check=check)]: a missing executable raises
    [FileNotFoundError] whatever [check]. Every other command is taken to
    start and exit with a status: launch failures raising another
    [OSError] (a [PermissionError], an exec format error) are not
    modelled. *)
Definition subprocess_run (argv : list string) (check : bool) : DM unit := fun s =>
  let s1 := mkDState (d_paths s) (d_trace s ++ [DRun argv]) in
  match run_status env argv with
  | None => (DRaise (FileNotFoundError (hd "" argv)), s1)
  | Some n =>
      let s2 := if Z.eqb n 0 then mkDState (command_effect argv (d_paths s1)) (d_trace s1)
                else s1 in
      if check && negb (Z.eqb n 0) then (DRaise (CalledProcessError argv n), s2)
      else (DOk tt, s2)
  end.

(** [shutil.rmtree(p)] *)
Definition shutil_rmtree (p : string) : DM unit := fun s =>
  if rmtree_allowed env then record (DRmtree p) (remove_tree p (d_paths s)) s
  else (DRaise (PermissionError p), s).

(** [os.remove(p)] *)
Definition os_remove (p : string) : DM unit := fun s =>
  record (DRemove p) (d_paths s ∖ {[p]}) s.

(** [os.makedirs(p)] *)
Definition os_makedirs (p : string) : DM unit := fun s =>
  if bool_decide (p ∈ d_paths s) then (DRaise (FileExistsError p), s)
  else record (DMakedirs p) ({[p]} ∪ d_paths s) s.

(** [shutil.copy2(f, "lambda-package/")] *)
Definition shutil_copy2 (f : string) : DM unit := fun s =>
  record (DCopy f "lambda-package/") ({["lambda-package/" +:+ f]} ∪ d_paths s) s.

(** [shutil.copytree(src, dst)] *)
Definition shutil_copytree (src dst : string) : DM unit := fun s =>
  if bool_decide (dst ∈ d_paths s) then (DRaise (FileExistsError dst), s)
  else record (DCopytree src dst) ({[dst]} ∪ d_paths s) s.

(** Lines 11-19: remove the previous package and zip. *)
Definition clean_up : DM unit :=
  let+ ex := os_path_exists "lambda-package" in
  let+ _ := (if ex then
               dtry (shutil_rmtree "lambda-package")
                 (fun e => match e with
                           | PermissionError _ =>
                               subprocess_run ["sudo"; "rm"; "-rf"; "lambda-package"] false
                           | _ => draise e
                           end)
             else dret tt) in
  let+ ex2 := os_path_exists "lambda-deployment.zip" in
  if ex2 then os_remove "lambda-deployment.zip" else dret tt.

Definition windows_docker_path : string :=
  "/mnt/c/Program Files/Docker/Docker/resources/bin/docker.exe".

(** The handler [except (subprocess.CalledProcessError, FileNotFoundError): pass]. *)
Definition probe_failed (e : DExn) : DM (option string) :=
  match e with
  | CalledProcessError _ _ | FileNotFoundError _ => dret None
  | _ => draise e
  end.

(** Lines 26-49: [docker_cmd], set exactly when [docker_available] is. *)
Definition find_docker : DM (option string) :=
  let+ found := dtry (let+ _ := subprocess_run ["docker"; "--version"] true in
                      dret (Some "docker"))
                  probe_failed in
  match found with
  | Some c => dret (Some c)
  | None =>
      let+ ex := os_path_exists windows_docker_path in
      if ex then
        dtry (let+ _ := subprocess_run [windows_docker_path; "info"] true in
              dret (Some windows_docker_path))
          probe_failed
      else dret None
  end.

(** [os.getuid() if hasattr(os, 'getuid') else 1000] *)
Definition user_id : Z :=
  match getuid env with Some u => u | None => 1000 end.

(** The [docker run] command of lines 57-74. *)
Definition docker_argv (docker_cmd : string) : list string :=
  [docker_cmd; "run"; "--rm"; "--user"; pretty user_id;
   "-v"; getcwd env +:+ ":/var/task";
   "--platform"; "linux/amd64"; "--entrypoint"; "";
   "public.ecr.aws/lambda/python:3.12"; "/bin/sh"; "-c";
   "pip install --target /var/task/lambda-package -r /var/task/requirements.txt --platform manylinux2014_x86_64 --only-binary=:all: --upgrade"].

(** [pip_cmd] of lines 92-102. *)
Definition pip_cmd : list string :=
  [executable env; "-m"; "pip"; "install"; "--target"; "lambda-package";
   "-r"; "requirements.txt"; "--upgrade"]
  ++ (if String.eqb (machine env) "x86_64"
      then ["--platform"; "manylinux2014_x86_64"; "--only-binary=:all:"] else []).

(** Lines 51-104. A failing [docker run] only sets [docker_available] to
    [False], which nothing reads afterwards. *)
Definition install_dependencies : DM unit :=
  let+ docker_cmd := find_docker in
  match docker_cmd with
  | Some cmd =>
      dtry (subprocess_run (docker_argv cmd) true)
        (fun e => match e with
                  | CalledProcessError _ _ => dret tt
                  | _ => draise e
                  end)
  | None => subprocess_run pip_cmd true
  end.

Definition app_files : list string :=
  ["server.py"; "lambda_handler.py"; "context.py"; "resources.py"].

(** The loop of lines 107-109. *)
Fixpoint copy_files (fs : list string) : DM unit :=
  match fs with
  | [] => dret tt
  | f :: rest =>
      let+ ex := os_path_exists f in
      let+ _ := (if ex then shutil_copy2 f else dret tt) in
      copy_files rest
  end.

(** Lines 106-112. *)
Definition copy_application : DM unit :=
  let+ _ := copy_files app_files in
  let+ ex := os_path_exists "data" in
  if ex then shutil_copytree "data" "lambda-package/data" else dret tt.

(** Lines 114-120. *)
Definition make_zip : DM unit := fun s =>
  record (DZip "lambda-deployment.zip" "lambda-package")
         ({["lambda-deployment.zip"]} ∪ d_paths s) s.

(** [main] *)
Definition main : DM unit :=
  let+ _ := clean_up in
  let+ _ := os_makedirs "lambda-package" in
  let+ _ := install_dependencies in
  let+ _ := copy_application in
  make_zip.

End Main.

(** Machines for the witnesses: a 64-bit Linux checkout of [backend]. *)
Definition demo_denv (status : list string -> option Z) (rm_ok : bool) : DEnv :=
  mkDEnv status rm_ok (Some 1000) "/home/dev/digital_twin/backend"
         "/usr/bin/python3" "x86_64".

(** Every command succeeds. *)
Definition all_ok (argv : list string) : option Z := Some 0.

(** [docker] is installed but its daemon is down. *)
Definition daemon_down (argv : list string) : option Z :=
  if bool_decide (argv = ["docker"; "--version"]) then Some 0
  else if String.eqb (hd "" argv) "docker" then Some 125 else Some 0.

(** No [docker]; the other commands exit with [status]. *)
Definition no_docker (status : Z) (argv : list string) : option Z :=
  if String.eqb (hd "" argv) "docker" then None else Some status.

(** A fresh checkout, without [resources.py]. *)
Definition checkout : DState :=
  mkDState (list_to_set ["server.py"; "lambda_handler.py"; "context.py"; "data";
                         "requirements.txt"]) [].

(** A checkout after an earlier build. *)
Definition rebuilt : DState :=
  mkDState (list_to_set ["server.py"; "lambda_handler.py"; "context.py"; "data";
                         "requirements.txt"; "lambda-package"; "lambda-package/server.py";
                         "lambda-deployment.zip"]) [].

(** A Windows checkout on a machine running WSL, whose Linux side has no [docker]. *)
Definition wsl_checkout : DState :=
  mkDState ({[windows_docker_path]} ∪ d_paths checkout) [].

End Deploy.

(** ** Properties *)

(** Two worlds with the same directories, files, objects and trace:
    only the clock and uuid counters may differ. *)
Definition store_eq (w w' : World) : Prop :=
  w_dirs w' = w_dirs w /\ w_files w' = w_files w /\
  w_s3 w' = w_s3 w /\ w_trace w' = w_trace w.

Lemma store_eq_refl w : store_eq w w.
Proof. repeat split. Qed.

Lemma store_eq_trans w1 w2 w3 : store_eq w1 w2 -> store_eq w2 w3 -> store_eq w1 w3.
Proof. unfold store_eq; intros (?&?&?&?) (?&?&?&?); repeat split; congruence. Qed.

Lemma resolve_session_id_ok env o w :
  exists sid, fst (resolve_session_id env o w) = Ok sid /\
              store_eq w (snd (resolve_session_id env o w)).
Proof.
  destruct o as [s|]; simpl; [destruct (String.eqb s "")|]; simpl;
    eexists; split; try reflexivity; repeat split.
Qed.

Lemma datetime_now_store env w : store_eq w (snd (datetime_now env w)).
Proof. repeat split. Qed.

(** Loading a conversation never changes the world. *)
Lemma load_conversation_world env sid w : snd (load_conversation env sid w) = w.
Proof.
  unfold load_conversation. destruct (USE_S3 env).
  - unfold try_except, s3_get_object.
    destruct (w_s3 w !! get_memory_path sid); simpl; [reflexivity|].
    destruct (String.eqb "NoSuchKey" "NoSuchKey"); reflexivity.
  - unfold bind, os_path_exists; simpl.
    destruct (is_dir w _ || is_file w _); [|reflexivity].
    unfold open_read_json.
    destruct (is_dir w _); [reflexivity|]. destruct (w_files w !! _); reflexivity.
Qed.

(** A failing Bedrock call: [call_bedrock] records one [converse] call
    and raises. *)
Lemma call_bedrock_raise env conv um w e :
  converse env (build_messages env conv um) = inl e ->
  exists e', call_bedrock env conv um w =
             (Raise e', snd (emit (EvConverse (build_messages env conv um)) w)).
Proof.
  intros He. unfold call_bedrock, try_except, bedrock_converse, bind.
  simpl. rewrite He. simpl.
  destruct e as [code t| |]; [|eauto|eauto].
  destruct (String.eqb code "ValidationException"); [eauto|].
  destruct (String.eqb code "AccessDeniedException"); eauto.
Qed.

(** [C1] Atomic failure of a chat turn: when the inference call fails, the
    chat request raises, and neither the local files (nor directories) nor
    the bucket change; the only outside calls made are [converse] calls,
    so [save_conversation] never ran. *)
Theorem chat_inference_failure_persists_nothing (env : Env) (req : ChatRequest) (w : World)
  (Hfail : forall ms, exists e, converse env ms = inl e) :
  let '(r, w') := chat env req w in
  (exists e, r = Raise e) /\
  w_files w' = w_files w /\ w_s3 w' = w_s3 w /\ w_dirs w' = w_dirs w /\
  exists evs, w_trace w' = w_trace w ++ evs /\
              Forall (fun ev => exists ms, ev = EvConverse ms) evs.
Proof.
  destruct (resolve_session_id_ok env (session_id req) w) as (sid & Hs1 & Hs2).
  unfold chat, try_except, bind at 1.
  destruct (resolve_session_id env (session_id req) w) as [r1 w1] eqn:Hr.
  simpl in Hs1, Hs2; subst r1.
  destruct Hs2 as (Hd & Hf & Hb & Ht).
  unfold bind at 1.
  pose proof (load_conversation_world env sid w1) as Hl.
  destruct (load_conversation env sid w1) as [[conv|e] w2] eqn:Hload;
    simpl in Hl; subst w2.
  - destruct (Hfail (build_messages env conv (message req))) as [e He].
    destruct (call_bedrock_raise env conv (message req) w1 e He) as [e' Hc].
    unfold bind at 1. rewrite Hc. simpl.
    destruct e'; simpl; (split; [eauto|]);
      repeat split; try congruence;
      exists [EvConverse (build_messages env conv (message req))];
      (split; [congruence|]); repeat constructor; eauto.
  - simpl. destruct e; simpl; (split; [eauto|]); repeat split; try congruence;
      exists []; rewrite app_nil_r; auto.
Qed.

Lemma bind_ok_inv {A B} (m : M A) (k : A -> M B) w b w'' :
  bind m k w = (Ok b, w'') -> exists a w', m w = (Ok a, w') /\ k a w' = (Ok b, w'').
Proof.
  unfold bind. destruct (m w) as [[a|e] w']; intros H; [eauto|inversion H].
Qed.

Lemma try_except_ok_inv {A} (m : M A) h w b w' :
  (forall e w0, exists e', fst (h e w0) = Raise e') ->
  try_except m h w = (Ok b, w') -> m w = (Ok b, w').
Proof.
  unfold try_except. intros Hh. destruct (m w) as [[a|e] w1] eqn:E.
  - intros H; exact H.
  - intros H. destruct (Hh e w1) as [e' He']. rewrite H in He'. discriminate.
Qed.

Lemma call_bedrock_ok env conv um w t w' :
  call_bedrock env conv um w = (Ok t, w') ->
  converse env (build_messages env conv um) = inr t /\
  w' = snd (emit (EvConverse (build_messages env conv um)) w).
Proof.
  unfold call_bedrock, try_except, bedrock_converse, bind; simpl.
  destruct (converse env _) as [e|t'] eqn:Hc; simpl.
  - destruct e as [code tx| |];
      [destruct (String.eqb code _); [|destruct (String.eqb code _)]| |];
      simpl; intros H; inversion H.
  - intros H; inversion H; subst; auto.
Qed.

(** The steps of a successful chat turn. *)
Lemma chat_ok_inv env req w resp w' :
  chat env req w = (Ok resp, w') ->
  exists w1 conv,
    resolve_session_id env (session_id req) w = (Ok (resp_session_id resp), w1) /\
    load_conversation env (resp_session_id resp) w1 = (Ok conv, w1) /\
    converse env (build_messages env conv (message req)) = inr (response resp) /\
    save_conversation env (resp_session_id resp)
      (conv ++ [mkMessage "user" (message req) (clock env (w_clock_reads w1));
                mkMessage "assistant" (response resp) (clock env (S (w_clock_reads w1)))])
      (mkWorld (w_dirs w1) (w_files w1) (w_s3 w1)
         (w_trace w1 ++ [EvConverse (build_messages env conv (message req))])
         (S (S (w_clock_reads w1))) (w_uuid_reads w1)) = (Ok tt, w').
Proof.
  unfold chat. intros H.
  apply try_except_ok_inv in H; [|intros e w0; destruct e; simpl; eauto].
  apply bind_ok_inv in H as (sid & w1 & Hs & H).
  apply bind_ok_inv in H as (conv & w2 & Hl & H).
  pose proof (load_conversation_world env sid w1) as Hw.
  rewrite Hl in Hw. simpl in Hw. subst w2.
  apply bind_ok_inv in H as (t & w3 & Hc & H).
  apply call_bedrock_ok in Hc as [Hc ->].
  apply bind_ok_inv in H as (t1 & w4 & Ht1 & H).
  unfold datetime_now in Ht1. injection Ht1 as <- <-.
  cbv beta zeta in H.
  apply bind_ok_inv in H as (t2 & w5 & Ht2 & H).
  unfold datetime_now in Ht2. injection Ht2 as <- <-.
  cbv beta zeta in H.
  apply bind_ok_inv in H as (u & w6 & Hsave & H).
  unfold ret in H. injection H as <- <-. destruct u.
  exists w1, conv. simpl. rewrite <- app_assoc in Hsave. repeat split; auto.
Qed.

(** Loading right after a successful save returns what was saved. *)
Lemma load_after_save env sid msgs w w' :
  save_conversation env sid msgs w = (Ok tt, w') ->
  load_conversation env sid w' = (Ok msgs, w').
Proof.
  unfold save_conversation, load_conversation.
  destruct (USE_S3 env).
  - unfold s3_put_object, emit, try_except, s3_get_object. simpl.
    intros H; injection H as <-. simpl. rewrite lookup_insert_eq. reflexivity.
  - intros H. apply bind_ok_inv in H as (u & w1 & Hmk & H).
    unfold open_write_json in H.
    set (p := resolve (cwd env) _) in H.
    destruct (is_dir w1 p) eqn:Hd; [discriminate|].
    destruct (negb (is_dir w1 (removelast p))); [discriminate|].
    unfold emit, set_files in H; simpl in H. injection H as <-.
    unfold bind, os_path_exists, open_read_json, is_dir, is_file in *. simpl.
    fold p. rewrite Hd, lookup_insert_eq. simpl. fold p. rewrite Hd, lookup_insert_eq. reflexivity.
Qed.

(** The result of a load depends only on directories, files and objects. *)
Lemma load_conversation_store env sid w w1 :
  w_dirs w1 = w_dirs w -> w_files w1 = w_files w -> w_s3 w1 = w_s3 w ->
  fst (load_conversation env sid w1) = fst (load_conversation env sid w).
Proof.
  intros Hd Hf Hb.
  unfold load_conversation. destruct (USE_S3 env).
  - unfold try_except, s3_get_object. rewrite Hb.
    destruct (w_s3 w !! get_memory_path sid); reflexivity.
  - unfold bind, os_path_exists, open_read_json, is_dir, is_file; simpl.
    rewrite Hd, Hf.
    destruct (bool_decide _ || _ || _); simpl; rewrite ?Hd, ?Hf; [|reflexivity].
    destruct (bool_decide _ || _); [reflexivity|].
    destruct (w_files w !! _); reflexivity.
Qed.

(** A successful save adds exactly one event to the trace. *)
Lemma save_trace env sid msgs w w' :
  save_conversation env sid msgs w = (Ok tt, w') ->
  exists ev, w_trace w' = w_trace w ++ [ev].
Proof.
  unfold save_conversation. destruct (USE_S3 env).
  - unfold s3_put_object, emit. intros H; injection H as <-. simpl. eauto.
  - intros H. apply bind_ok_inv in H as (u & w1 & Hmk & H).
    unfold os_makedirs in Hmk.
    destruct (String.eqb (MEMORY_DIR env) ""); [discriminate|].
    destruct (mkdirs_walk _ _ _ _); [|discriminate].
    injection Hmk as _ <-.
    unfold open_write_json in H.
    destruct (is_dir _ _); [discriminate|].
    destruct (negb _); [discriminate|].
    unfold emit in H; injection H as <-. simpl. eauto.
Qed.

(** [C2] Context-window truncation: the messages a successful chat turn
    sends to Bedrock are the system entry, the last [min(n, 20)] of the
    [n] stored messages in order, then the new user message; the log
    saved afterwards is the whole stored log followed by two new
    messages. *)
Theorem chat_context_window (env : Env) (req : ChatRequest) (w : World)
    (resp : ChatResponse) (w' : World) (conv : list Message)
    (Hok : chat env req w = (Ok resp, w'))
    (Hconv : fst (load_conversation env (resp_session_id resp) w) = Ok conv) :
  exists pre suf ev,
    conv = pre ++ suf /\ length suf = Nat.min (length conv) 20 /\
    w_trace w' = w_trace w ++
      [EvConverse (system_entry env :: map to_bmsg suf ++ [mkBMsg "user" [message req]]); ev] /\
    exists u a, fst (load_conversation env (resp_session_id resp) w') = Ok (conv ++ [u; a]).
Proof.
  apply chat_ok_inv in Hok as (w1 & conv' & Hs & Hl & Hc & Hsave).
  destruct (resolve_session_id_ok env (session_id req) w) as (sid & Hs1 & Hd & Hf & Hb & Ht).
  rewrite Hs in Hs1, Hd, Hf, Hb, Ht. simpl in *.
  pose proof (load_conversation_store env (resp_session_id resp) w w1 Hd Hf Hb) as Heq.
  rewrite Hl, Hconv in Heq. simpl in Heq. injection Heq as ->.
  exists (take (length conv - 20) conv), (drop (length conv - 20) conv).
  destruct (save_trace _ _ _ _ _ Hsave) as [ev Hev].
  exists ev. split; [symmetry; apply take_drop|]. split.
  { rewrite length_drop. lia. }
  split.
  - rewrite Hev. simpl. rewrite Ht, <- app_assoc. reflexivity.
  - apply load_after_save in Hsave. rewrite Hsave. eauto.
Qed.

Lemma bind_ok_eq {A B} (m : M A) (k : A -> M B) w a w1 :
  m w = (Ok a, w1) -> bind m k w = k a w1.
Proof. unfold bind. intros ->. reflexivity. Qed.

Lemma resolve_session_id_clock env o w :
  w_clock_reads (snd (resolve_session_id env o w)) = w_clock_reads w.
Proof. destruct o as [s|]; simpl; [destruct (String.eqb s "")|]; reflexivity. Qed.

(** [C3] (amended) Turn append semantics: after a successful chat turn the
    stored log is the log loaded before the turn followed by the user
    message and then the assistant reply; the user message carries the
    first reading of the wall clock taken during the turn, the assistant
    reply the next reading. *)
Theorem chat_appends_turn (env : Env) (req : ChatRequest) (w : World)
    (resp : ChatResponse) (w' : World) (conv : list Message)
    (Hok : chat env req w = (Ok resp, w'))
    (Hconv : fst (load_conversation env (resp_session_id resp) w) = Ok conv) :
  fst (load_conversation env (resp_session_id resp) w') =
    Ok (conv ++ [mkMessage "user" (message req) (clock env (w_clock_reads w));
                 mkMessage "assistant" (response resp) (clock env (S (w_clock_reads w)))]) /\
  w_clock_reads w' = S (S (w_clock_reads w)).
Proof.
  pose proof (resolve_session_id_clock env (session_id req) w) as Hclk.
  apply chat_ok_inv in Hok as (w1 & conv' & Hs & Hl & Hc & Hsave).
  destruct (resolve_session_id_ok env (session_id req) w) as (sid & Hs1 & Hd & Hf & Hb & Ht).
  rewrite Hs in Hs1, Hd, Hf, Hb, Ht, Hclk. simpl in *.
  pose proof (load_conversation_store env (resp_session_id resp) w w1 Hd Hf Hb) as Heq.
  rewrite Hl, Hconv in Heq. simpl in Heq. injection Heq as ->.
  rewrite Hclk in Hsave. split.
  - apply load_after_save in Hsave. rewrite Hsave. reflexivity.
  - unfold save_conversation in Hsave. destruct (USE_S3 env).
    + unfold s3_put_object, emit in Hsave. injection Hsave as <-. simpl. congruence.
    + apply bind_ok_inv in Hsave as (u & w2 & Hmk & H).
      unfold os_makedirs in Hmk.
      destruct (String.eqb (MEMORY_DIR env) ""); [discriminate|].
      destruct (mkdirs_walk _ _ _ _); [|discriminate].
      injection Hmk as _ <-.
      unfold open_write_json in H.
      destruct (is_dir _ _); [discriminate|].
      destruct (negb _); [discriminate|].
      unfold emit in H; injection H as <-. simpl. congruence.
Qed.

(** [C4] A missing session is not an error: when nothing exists at the
    session's storage location (no object with its key in the bucket, or
    neither file nor directory at its path), [load_conversation] returns
    the empty log, and [GET /conversation/{id}] answers 200 with
    [{session_id: id, messages: []}]. *)
Theorem missing_session_loads_empty (env : Env) (w : World) (sid : string)
    (Hnone : if USE_S3 env then w_s3 w !! get_memory_path sid = None
             else let p := resolve (cwd env) (os_path_join (MEMORY_DIR env) (get_memory_path sid)) in
                  is_dir w p = false /\ w_files w !! p = None) :
  load_conversation env sid w = (Ok [], w) /\
  get_conversation env sid w = (Ok (mkConversationView sid []), w) /\
  http_status (fst (get_conversation env sid w)) = 200.
Proof.
  assert (Hl : load_conversation env sid w = (Ok [], w)).
  { unfold load_conversation. destruct (USE_S3 env).
    - unfold try_except, s3_get_object. rewrite Hnone. reflexivity.
    - destruct Hnone as [Hd Hf].
      unfold bind, os_path_exists, is_file. simpl. rewrite Hd, Hf. reflexivity. }
  assert (Hg : get_conversation env sid w = (Ok (mkConversationView sid []), w)).
  { unfold get_conversation, try_except. rewrite (bind_ok_eq _ _ _ _ _ Hl). reflexivity. }
  rewrite Hg. auto.
Qed.

(** [C5] Inference failure mapping: when the Bedrock call of a chat turn
    raises, the turn answers 400 for a [ValidationException], 403 for an
    [AccessDeniedException], 500 with ["Bedrock error: " + str(e)] for any
    other [ClientError] and 500 with [str(e)] for any other exception;
    [converse] is called exactly once (no retry) and nothing is written. *)
Theorem chat_inference_error_mapping (env : Env) (req : ChatRequest) (w w1 : World)
    (sid : string) (conv : list Message) (e : Exn)
    (Hsid : resolve_session_id env (session_id req) w = (Ok sid, w1))
    (Hload : fst (load_conversation env sid w1) = Ok conv)
    (Hconv : converse env (build_messages env conv (message req)) = inl e) :
  let '(r, w') := chat env req w in
  w_trace w' = w_trace w ++ [EvConverse (build_messages env conv (message req))] /\
  w_files w' = w_files w /\ w_s3 w' = w_s3 w /\
  (forall t, e = EClient "ValidationException" t ->
     r = Raise (EHTTP 400 "Invalid message format for Bedrock") /\ http_status r = 400) /\
  (forall t, e = EClient "AccessDeniedException" t ->
     r = Raise (EHTTP 403 "Access denied to Bedrock model") /\ http_status r = 403) /\
  (forall code t, e = EClient code t ->
     code <> "ValidationException" -> code <> "AccessDeniedException" ->
     r = Raise (EHTTP 500 ("Bedrock error: " +:+ t)) /\ http_status r = 500) /\
  (forall t, e = EOther t -> r = Raise (EHTTP 500 t) /\ http_status r = 500).
Proof.
  destruct (resolve_session_id_ok env (session_id req) w) as (sid' & _ & Hd & Hf & Hb & Ht).
  rewrite Hsid in Hd, Hf, Hb, Ht. simpl in Hd, Hf, Hb, Ht.
  pose proof (load_conversation_world env sid w1) as Hw.
  destruct (load_conversation env sid w1) as [r1 w2] eqn:Hl.
  simpl in Hw, Hload. subst r1 w2.
  unfold chat, try_except.
  rewrite (bind_ok_eq _ _ _ _ _ Hsid). cbv beta.
  rewrite (bind_ok_eq _ _ _ _ _ Hl). cbv beta.
  unfold bind at 1, call_bedrock, try_except, bedrock_converse, bind. simpl.
  rewrite Hconv. simpl.
  destruct e as [code t|s d|t].
  - destruct (String.eqb_spec code "ValidationException") as [->|Hv]; simpl.
    + repeat split; simpl; try congruence; intros ? ?; congruence.
    + destruct (String.eqb_spec code "AccessDeniedException") as [->|Ha]; simpl.
      * repeat split; simpl; try congruence; intros ? ?; congruence.
      * repeat split; simpl; try congruence; intros ? ? H; injection H as <- <-; auto.
  - repeat split; simpl; try congruence; intros ? ?; congruence.
  - repeat split; simpl; try congruence; intros ? H; injection H as <-; auto.
Qed.

(** [C7] Store round trip: on either backend, loading a session right
    after a successful save of a log returns that log. *)
Theorem save_then_load_roundtrip (env : Env) (sid : string) (msgs : list Message)
    (w w' : World) (Hsave : save_conversation env sid msgs w = (Ok tt, w')) :
  load_conversation env sid w' = (Ok msgs, w').
Proof. exact (load_after_save env sid msgs w w' Hsave). Qed.

(** [C10] The system instruction is the first entry of every message list
    sent to Bedrock, as a message with role ["user"] whose only text is
    ["System: "] followed by the prompt, whatever the history. *)
Theorem system_prompt_first_entry (env : Env) (conversation : list Message)
    (user_message : string) :
  head (build_messages env conversation user_message) =
    Some (mkBMsg "user" ["System: " +:+ prompt_text env]).
Proof. reflexivity. Qed.

(** ** Strings and paths *)

Lemma str_app_cons c a b : String c a +:+ b = String c (a +:+ b).
Proof. reflexivity. Qed.

Lemma str_app_assoc a b c : (a +:+ b) +:+ c = a +:+ (b +:+ c).
Proof. induction a as [|x a IH]; [reflexivity|]. rewrite !str_app_cons, IH. reflexivity. Qed.

Lemma str_length_app a b : String.length (a +:+ b) = (String.length a + String.length b)%nat.
Proof. induction a as [|x a IH]; [reflexivity|]. rewrite str_app_cons. simpl. lia. Qed.

Lemma str_app_inj_r a b c : a +:+ c = b +:+ c -> a = b.
Proof.
  revert b. induction a as [|x a IH]; intros [|y b] H.
  - reflexivity.
  - exfalso. assert (Hl := f_equal String.length H).
    rewrite str_length_app, str_app_cons in Hl. simpl in Hl.
    rewrite str_length_app in Hl. lia.
  - exfalso. assert (Hl := f_equal String.length H).
    rewrite str_app_cons, str_length_app in Hl. simpl in Hl.
    rewrite str_length_app in Hl. lia.
  - rewrite !str_app_cons in H. injection H as -> H. f_equal. apply IH, H.
Qed.

Lemma no_slash_app a b : no_slash (a +:+ b) = no_slash a && no_slash b.
Proof.
  induction a as [|x a IH]; [reflexivity|].
  rewrite str_app_cons. simpl. rewrite IH. apply andb_assoc.
Qed.

Lemma split_slash_cons_ne s : exists p ps, split_slash s = p :: ps.
Proof.
  destruct s as [|c s]; simpl; [eauto|].
  destruct (Ascii.eqb c "/"); [eauto|]. destruct (split_slash s); eauto.
Qed.

Lemma split_slash_app_slash a b :
  split_slash (a +:+ String "/" b) = split_slash a ++ split_slash b.
Proof.
  induction a as [|c a IH]; [reflexivity|].
  rewrite str_app_cons. simpl. rewrite IH.
  destruct (Ascii.eqb c "/"); [reflexivity|].
  destruct (split_slash_cons_ne a) as (p & ps & ->). reflexivity.
Qed.

Lemma split_slash_no_slash s : no_slash s = true -> split_slash s = [s].
Proof.
  induction s as [|c s IH]; simpl; [reflexivity|].
  intros H. apply andb_prop in H as [Hc Hs].
  rewrite IH by exact Hs. apply negb_true_iff in Hc. rewrite Hc. reflexivity.
Qed.

Lemma ends_with_slash_split a : ends_with_slash a = true -> exists m, a = m +:+ "/".
Proof.
  induction a as [|c a IH]; simpl; [discriminate|].
  destruct a as [|c' a'].
  - intros H. apply Ascii.eqb_eq in H. subst. exists "". reflexivity.
  - intros H. destruct (IH H) as [m Hm]. exists (String c m). rewrite Hm. reflexivity.
Qed.

Lemma starts_with_slash_app a b : a <> "" -> starts_with_slash (a +:+ b) = starts_with_slash a.
Proof. destruct a; [congruence|reflexivity]. Qed.

Lemma path_step_plain cur f :
  f <> "" -> f <> "." -> f <> ".." -> path_step cur f = cur ++ [f].
Proof.
  intros H0 H1 H2. unfold path_step.
  destruct (String.eqb_spec f ""); [congruence|].
  destruct (String.eqb_spec f "."); [congruence|].
  destruct (String.eqb_spec f ".."); [congruence|]. reflexivity.
Qed.

(** [os.path.join(md, f)] for a plain file name [f] names the entry [f]
    of the directory [md]. *)
Lemma resolve_join cwd md f :
  md <> "" -> no_slash f = true -> f <> "" -> f <> "." -> f <> ".." ->
  resolve cwd (os_path_join md f) = resolve cwd md ++ [f].
Proof.
  intros Hmd Hf Hf0 Hf1 Hf2.
  assert (Hsf : starts_with_slash f = false).
  { destruct f as [|c f']; [congruence|]. simpl in Hf |- *.
    apply andb_prop in Hf as [Hc _]. apply negb_true_iff in Hc. exact Hc. }
  unfold os_path_join. rewrite Hsf.
  destruct (String.eqb_spec md ""); [congruence|]. simpl orb.
  destruct (ends_with_slash md) eqn:He.
  - destruct (ends_with_slash_split md He) as [m ->].
    rewrite str_app_assoc. change ("/" +:+ f) with (String "/" f).
    unfold resolve.
    replace (starts_with_slash (m +:+ String "/" f))
      with (starts_with_slash (m +:+ String "/" "")) by (destruct m; reflexivity).
    rewrite !split_slash_app_slash, (split_slash_no_slash f Hf).
    simpl split_slash. rewrite !fold_left_app. simpl.
    apply path_step_plain; assumption.
  - change ("/" +:+ f) with (String "/" f).
    unfold resolve. rewrite starts_with_slash_app by assumption.
    rewrite split_slash_app_slash, (split_slash_no_slash f Hf).
    rewrite fold_left_app. simpl. apply path_step_plain; assumption.
Qed.

(** The file name [f"{sid}.json"] of a session id without ["/"] is a
    plain file name. *)
Lemma memory_path_plain sid :
  no_slash sid = true ->
  let f := get_memory_path sid in
  no_slash f = true /\ f <> "" /\ f <> "." /\ f <> "..".
Proof.
  intros Hs. unfold get_memory_path.
  assert (Hl : (5 <= String.length (sid +:+ ".json"))%nat)
    by (rewrite str_length_app; simpl; lia).
  repeat split.
  - rewrite no_slash_app, Hs. reflexivity.
  - intros H; rewrite H in Hl; simpl in Hl; lia.
  - intros H; rewrite H in Hl; simpl in Hl; lia.
  - intros H; rewrite H in Hl; simpl in Hl; lia.
Qed.

(** What a save does to the files and objects, by outcome. *)
Lemma save_effect env sid msgs w :
  let '(r, w') := save_conversation env sid msgs w in
  match r with
  | Ok _ =>
      if USE_S3 env then
        w_s3 w' = <[get_memory_path sid := mkDoc 2 msgs]> (w_s3 w) /\ w_files w' = w_files w
      else
        MEMORY_DIR env <> "" /\ w_s3 w' = w_s3 w /\
        w_files w' = <[resolve (cwd env) (os_path_join (MEMORY_DIR env) (get_memory_path sid))
                        := mkDoc 2 msgs]> (w_files w)
  | Raise _ => w_files w' = w_files w /\ w_s3 w' = w_s3 w
  end.
Proof.
  unfold save_conversation. destruct (USE_S3 env) eqn:Hs3.
  - unfold s3_put_object, emit. simpl. auto.
  - unfold bind, os_makedirs.
    destruct (String.eqb_spec (MEMORY_DIR env) ""); [simpl; auto|].
    destruct (mkdirs_walk _ _ _ _); [|simpl; auto].
    unfold open_write_json.
    destruct (is_dir _ _); [simpl; auto|].
    destruct (negb _); simpl; auto.
Qed.

(** A chat request on session [s1] changes files and objects only through
    one save on [s1]. *)
Lemma chat_frame env req w s1 :
  session_id req = Some s1 -> s1 <> "" ->
  (w_files (snd (chat env req w)) = w_files w /\ w_s3 (snd (chat env req w)) = w_s3 w) \/
  exists msgs w2, w_files w2 = w_files w /\ w_s3 w2 = w_s3 w /\
                  snd (chat env req w) = snd (save_conversation env s1 msgs w2).
Proof.
  intros Hreq Hne.
  assert (Hs : resolve_session_id env (session_id req) w = (Ok s1, w)).
  { rewrite Hreq. simpl. destruct (String.eqb_spec s1 ""); [contradiction|reflexivity]. }
  unfold chat.
  assert (Hh : forall (m : M ChatResponse) w0,
            snd (try_except m (fun e => match e with
                                        | EHTTP _ _ => raise e
                                        | _ => raise (EHTTP 500 (exn_str e))
                                        end) w0) = snd (m w0)).
  { intros m w0. unfold try_except.
    destruct (m w0) as [[a|e] w1]; [reflexivity|destruct e; reflexivity]. }
  rewrite Hh. clear Hh.
  rewrite (bind_ok_eq _ _ _ _ _ Hs). cbv beta.
  pose proof (load_conversation_world env s1 w) as Hw.
  destruct (load_conversation env s1 w) as [[conv|e] w2] eqn:Hl; simpl in Hw; subst w2.
  2: { left. unfold bind. rewrite Hl. auto. }
  rewrite (bind_ok_eq _ _ _ _ _ Hl). cbv beta.
  destruct (call_bedrock env conv (message req) w) as [[t|e] w3] eqn:Hc.
  - rewrite (bind_ok_eq _ _ _ _ _ Hc). cbv beta.
    apply call_bedrock_ok in Hc as [_ ->].
    cbv [bind datetime_now].
    destruct (save_conversation _ _ _ _) as [[u|e'] w4] eqn:Hsv;
      (right; match type of Hsv with
              | save_conversation _ _ ?m ?w2 = _ => exists m, w2
              end; rewrite Hsv; simpl; auto).
  - left. unfold bind. rewrite Hc.
    unfold call_bedrock, try_except, bedrock_converse, bind in Hc. simpl in Hc.
    destruct (converse env _) as [e0|t0]; [|discriminate].
    simpl in Hc. destruct e0 as [code tx| |];
      [destruct (String.eqb code _); [|destruct (String.eqb code _)]| |];
      simpl in Hc; injection Hc as _ <-; simpl; auto.
Qed.

(** [X14] Session isolation for plain ids: on the S3 backend any two
    distinct session ids, and on the local backend any two distinct
    session ids without ["/"], never interfere: a save for [s1], and a chat request
    on [s1], whatever their outcome, leave the stored record of [s2]
    unchanged. *)
Theorem session_isolation (env : Env) (s1 s2 : string) (msgs : list Message)
    (req : ChatRequest) (w : World)
    (Hne : s1 <> s2)
    (Hplain : USE_S3 env = true \/ (no_slash s1 = true /\ no_slash s2 = true))
    (Hreq : session_id req = Some s1) (Hs1 : s1 <> "") :
  record_of env (snd (save_conversation env s1 msgs w)) s2 = record_of env w s2 /\
  record_of env (snd (chat env req w)) s2 = record_of env w s2.
Proof.
  assert (Hsave : forall msgs0 w0,
    record_of env (snd (save_conversation env s1 msgs0 w0)) s2 = record_of env w0 s2).
  { intros msgs0 w0. pose proof (save_effect env s1 msgs0 w0) as He.
    destruct (save_conversation env s1 msgs0 w0) as [[u|e] w1]; simpl.
    - unfold record_of. destruct (USE_S3 env) eqn:Hs3.
      + destruct He as [-> _]. rewrite lookup_insert_ne; [reflexivity|].
        unfold get_memory_path. intros H. apply Hne. eapply str_app_inj_r. exact H.
      + destruct He as (Hmd & _ & ->).
        destruct Hplain as [Hc|[Hp1 Hp2]]; [discriminate|].
        destruct (memory_path_plain s1 Hp1) as (Ha1 & Hb1 & Hc1 & Hd1).
        destruct (memory_path_plain s2 Hp2) as (Ha2 & Hb2 & Hc2 & Hd2).
        rewrite !resolve_join by assumption.
        rewrite lookup_insert_ne; [reflexivity|].
        intros H. apply app_inj_tail in H as [_ H].
        unfold get_memory_path in H. apply Hne. eapply str_app_inj_r. exact H.
    - destruct He as [Hf Hb]. unfold record_of. rewrite Hf, Hb. reflexivity. }
  split; [apply Hsave|].
  destruct (chat_frame env req w s1 Hreq Hs1) as [[Hf Hb]|(m & w2 & Hf & Hb & ->)].
  - unfold record_of. rewrite Hf, Hb. reflexivity.
  - rewrite Hsave. unfold record_of. rewrite Hf, Hb. reflexivity.
Qed.

(** [X15] Persisted layout for plain ids: for a session id without ["/"]
    (any id on the S3 backend), a successful save replaces exactly one record:
    the object with key [{sid}.json] in the bucket, or the file
    [{sid}.json] directly in the directory [MEMORY_DIR]; its new content
    is the JSON text of the whole log, indented by 2, and nothing else
    changes. *)
Theorem persisted_layout (env : Env) (sid : string) (msgs : list Message) (w w' : World)
    (Hplain : USE_S3 env = true \/ no_slash sid = true)
    (Hsave : save_conversation env sid msgs w = (Ok tt, w')) :
  if USE_S3 env then
    w_s3 w' = <[sid +:+ ".json" := mkDoc 2 msgs]> (w_s3 w) /\ w_files w' = w_files w
  else
    w_files w' = <[resolve (cwd env) (MEMORY_DIR env) ++ [sid +:+ ".json"] := mkDoc 2 msgs]>
                   (w_files w) /\ w_s3 w' = w_s3 w.
Proof.
  pose proof (save_effect env sid msgs w) as He. rewrite Hsave in He.
  destruct (USE_S3 env) eqn:Hs3; [exact He|].
  destruct He as (Hmd & Hb & Hf).
  destruct Hplain as [Hc|Hp]; [discriminate|].
  destruct (memory_path_plain sid Hp) as (Ha1 & Hb1 & Hc1 & Hd1).
  rewrite resolve_join in Hf by assumption. auto.
Qed.

(** [C6] (amended) Session-id resolution: a non-empty [session_id] of the
    request is used verbatim, an absent or empty one is replaced by a
    fresh [str(uuid.uuid4())]; the id returned is the one whose stored
    log the turn extends. *)
Theorem chat_session_id_resolution (env : Env) (req : ChatRequest) (w : World)
    (resp : ChatResponse) (w' : World)
    (Hok : chat env req w = (Ok resp, w')) :
  ((exists s, session_id req = Some s /\ s <> "" /\ resp_session_id resp = s) \/
   ((session_id req = None \/ session_id req = Some "") /\
    resp_session_id resp = uuid4 env (w_uuid_reads w))) /\
  exists conv u a,
    fst (load_conversation env (resp_session_id resp) w) = Ok conv /\
    fst (load_conversation env (resp_session_id resp) w') = Ok (conv ++ [u; a]).
Proof.
  apply chat_ok_inv in Hok as (w1 & conv & Hs & Hl & Hc & Hsave).
  destruct (resolve_session_id_ok env (session_id req) w) as (sid & Hs1 & Hd & Hf & Hb & Ht).
  rewrite Hs in Hs1, Hd, Hf, Hb, Ht. simpl in *.
  split.
  - destruct (session_id req) as [s|] eqn:Hreq; simpl in Hs.
    + destruct (String.eqb_spec s "") as [->|Hne]; simpl in Hs.
      * right. injection Hs as <- _. auto.
      * left. injection Hs as <- _. eauto.
    + right. injection Hs as <- _. auto.
  - pose proof (load_conversation_store env (resp_session_id resp) w w1 Hd Hf Hb) as Heq.
    rewrite Hl in Heq. simpl in Heq.
    apply load_after_save in Hsave. rewrite Hsave. eauto.
Qed.

(** ** Further properties of server.py *)

Lemma bind_raise_eq {A B} (m : M A) (k : A -> M B) w e w1 :
  m w = (Raise e, w1) -> bind m k w = (Raise e, w1).
Proof. unfold bind. intros ->. reflexivity. Qed.

(** [load_conversation] never raises an [HTTPException]. *)
Lemma load_conversation_not_http env sid w e :
  fst (load_conversation env sid w) = Raise e -> forall s d, e <> EHTTP s d.
Proof.
  unfold load_conversation. destruct (USE_S3 env).
  - unfold try_except, s3_get_object.
    destruct (w_s3 w !! _) as [doc|]; simpl; [intros ? ? ? ->; discriminate|].
    repeat case_match; simpl; intros ? ? ? ->; discriminate.
  - unfold bind, os_path_exists, open_read_json; simpl.
    repeat case_match; simpl; intros ? ? ? ->; discriminate.
Qed.

(** A failing save raises an [OSError] and adds nothing to the trace, the
    files or the bucket. *)
Lemma save_raise env sid msgs w e :
  fst (save_conversation env sid msgs w) = Raise e ->
  (exists t, e = EOther t) /\
  w_trace (snd (save_conversation env sid msgs w)) = w_trace w /\
  w_files (snd (save_conversation env sid msgs w)) = w_files w /\
  w_s3 (snd (save_conversation env sid msgs w)) = w_s3 w.
Proof.
  unfold save_conversation. destruct (USE_S3 env).
  - unfold s3_put_object, emit. simpl. discriminate.
  - unfold bind, os_makedirs.
    destruct (String.eqb (MEMORY_DIR env) "");
      [simpl; intros H; injection H as <-; split; [eauto|repeat split]|].
    destruct (mkdirs_walk _ _ _ _);
      [|simpl; intros H; injection H as <-; split; [eauto|repeat split]].
    unfold open_write_json.
    destruct (is_dir _ _); [simpl; intros H; injection H as <-; split; [eauto|repeat split]|].
    destruct (negb _); [simpl; intros H; injection H as <-; split; [eauto|repeat split]|].
    simpl. discriminate.
Qed.

(** A save on the bucket touches no file or directory; a local save
    touches no object. *)
Lemma save_backend env sid msgs w :
  if USE_S3 env then
    w_files (snd (save_conversation env sid msgs w)) = w_files w /\
    w_dirs (snd (save_conversation env sid msgs w)) = w_dirs w
  else w_s3 (snd (save_conversation env sid msgs w)) = w_s3 w.
Proof.
  unfold save_conversation. destruct (USE_S3 env).
  - unfold s3_put_object, emit. simpl. auto.
  - unfold bind, os_makedirs.
    destruct (String.eqb _ _); [reflexivity|].
    destruct (mkdirs_walk _ _ _ _); [|reflexivity].
    unfold open_write_json.
    destruct (is_dir _ _); [reflexivity|].
    destruct (negb _); reflexivity.
Qed.

Lemma call_bedrock_world env conv um w :
  w_dirs (snd (call_bedrock env conv um w)) = w_dirs w /\
  w_files (snd (call_bedrock env conv um w)) = w_files w /\
  w_s3 (snd (call_bedrock env conv um w)) = w_s3 w /\
  w_trace (snd (call_bedrock env conv um w)) =
    w_trace w ++ [EvConverse (build_messages env conv um)].
Proof.
  unfold call_bedrock, try_except, bedrock_converse, bind; simpl.
  destruct (converse env _) as [e|t]; simpl; [|repeat split].
  destruct e as [code tx| |];
    [destruct (String.eqb code _); [|destruct (String.eqb code _)]| |];
    simpl; repeat split.
Qed.

(** The two ways a chat turn ends: it raises before any save, after at
    most one Bedrock call; or it runs one save, on the store as it was
    plus one [converse] event, and answers as that save went. *)
Lemma chat_shape env req w r w' :
  chat env req w = (r, w') ->
  (exists e, r = Raise e /\ w_dirs w' = w_dirs w /\ w_files w' = w_files w /\
             w_s3 w' = w_s3 w /\
             exists evs, w_trace w' = w_trace w ++ evs /\
                         Forall (fun ev => exists ms, ev = EvConverse ms) evs) \/
  (exists sid msgs w2 ms r0,
     w_dirs w2 = w_dirs w /\ w_files w2 = w_files w /\ w_s3 w2 = w_s3 w /\
     w_trace w2 = w_trace w ++ [EvConverse ms] /\
     save_conversation env sid msgs w2 = (r0, w') /\
     match r0 with
     | Ok _ => exists resp, r = Ok resp
     | Raise e => r = Raise (EHTTP 500 (exn_str e))
     end).
Proof.
  intros Hc.
  destruct (resolve_session_id_ok env (session_id req) w) as (sid & Hs1 & Hd & Hf & Hb & Ht).
  destruct (resolve_session_id env (session_id req) w) as [r1 w1] eqn:Hs.
  simpl in Hs1, Hd, Hf, Hb, Ht. subst r1.
  unfold chat, try_except in Hc.
  rewrite (bind_ok_eq _ _ _ _ _ Hs) in Hc. cbv beta in Hc.
  pose proof (load_conversation_world env sid w1) as Hw.
  destruct (load_conversation env sid w1) as [[conv|e] w2] eqn:Hl; simpl in Hw; subst w2.
  2: { rewrite (bind_raise_eq _ _ _ _ _ Hl) in Hc.
       left. destruct e; simpl in Hc; injection Hc as <- <-;
         (eexists; split; [reflexivity|]); repeat split; try congruence;
         exists []; rewrite app_nil_r; auto. }
  rewrite (bind_ok_eq _ _ _ _ _ Hl) in Hc. cbv beta in Hc.
  pose proof (call_bedrock_world env conv (message req) w1) as (Hd3 & Hf3 & Hb3 & Ht3).
  destruct (call_bedrock env conv (message req) w1) as [[t|e] w3] eqn:Hcb;
    simpl in Hd3, Hf3, Hb3, Ht3.
  2: { rewrite (bind_raise_eq _ _ _ _ _ Hcb) in Hc.
       left. destruct e; simpl in Hc; injection Hc as <- <-;
         (eexists; split; [reflexivity|]); repeat split; try congruence;
         exists [EvConverse (build_messages env conv (message req))];
         (split; [congruence|]); repeat constructor; eauto. }
  rewrite (bind_ok_eq _ _ _ _ _ Hcb) in Hc. cbv beta in Hc.
  cbv [bind datetime_now] in Hc.
  match type of Hc with
  | context [save_conversation env sid ?m ?w0] =>
      remember m as msgs eqn:Hm; remember w0 as w4 eqn:Hw4
  end.
  right. exists sid, msgs, w4, (build_messages env conv (message req)).
  assert (Hst : w_dirs w4 = w_dirs w /\ w_files w4 = w_files w /\ w_s3 w4 = w_s3 w /\
                w_trace w4 = w_trace w ++ [EvConverse (build_messages env conv (message req))]).
  { subst w4. simpl. repeat split; congruence. }
  destruct Hst as (Hd4 & Hf4 & Hb4 & Ht4).
  destruct (save_conversation env sid msgs w4) as [[u|e] w5] eqn:Hsv.
  - unfold ret in Hc. injection Hc as <- <-.
    exists (Ok u). repeat (split; [assumption|]). split; [first [exact Hsv|reflexivity]|]. eauto.
  - pose proof (save_raise env sid msgs w4 e) as Hr. rewrite Hsv in Hr.
    destruct (Hr eq_refl) as ([t0 ->] & _).
    simpl in Hc. injection Hc as <- <-.
    exists (Raise (EOther t0)). repeat (split; [assumption|]). split; [first [exact Hsv|reflexivity]|]. reflexivity.
Qed.

(** [X2] When Bedrock answers but the save fails, the turn answers 500
    with [str(e)] of the storage error instead of the reply, and Bedrock
    was called exactly once. *)
Theorem chat_save_failure_after_reply (env : Env) (req : ChatRequest) (w w1 : World)
    (sid : string) (conv : list Message) (t : string) (e : Exn)
    (Hsid : resolve_session_id env (session_id req) w = (Ok sid, w1))
    (Hload : fst (load_conversation env sid w1) = Ok conv)
    (Hconv : converse env (build_messages env conv (message req)) = inr t)
    (Hsave : forall msgs w0, w_dirs w0 = w_dirs w -> w_files w0 = w_files w ->
             fst (save_conversation env sid msgs w0) = Raise e) :
  let '(r, w') := chat env req w in
  r = Raise (EHTTP 500 (exn_str e)) /\ http_status r = 500 /\
  exists evs, w_trace w' = w_trace w ++ EvConverse (build_messages env conv (message req)) :: evs /\
    Forall (fun ev => forall ms, ev <> EvConverse ms) evs.
Proof.
  destruct (resolve_session_id_ok env (session_id req) w) as (sid' & _ & Hd & Hf & Hb & Ht).
  rewrite Hsid in Hd, Hf, Hb, Ht. simpl in Hd, Hf, Hb, Ht.
  pose proof (load_conversation_world env sid w1) as Hw.
  destruct (load_conversation env sid w1) as [r1 w2] eqn:Hl.
  simpl in Hw, Hload. subst r1 w2.
  assert (Hc : call_bedrock env conv (message req) w1 =
               (Ok t, snd (emit (EvConverse (build_messages env conv (message req))) w1))).
  { unfold call_bedrock, try_except, bedrock_converse, bind. simpl. rewrite Hconv. reflexivity. }
  unfold chat, try_except.
  rewrite (bind_ok_eq _ _ _ _ _ Hsid). cbv beta.
  rewrite (bind_ok_eq _ _ _ _ _ Hl). cbv beta.
  rewrite (bind_ok_eq _ _ _ _ _ Hc). cbv beta.
  cbv [bind datetime_now].
  match goal with
  | |- context [save_conversation env sid ?m ?w0] =>
      pose proof (Hsave m w0 ltac:(simpl; congruence) ltac:(simpl; congruence)) as Hs0;
      pose proof (save_raise env sid m w0 e Hs0) as ([t0 ->] & Ht5 & Hf5 & Hb5);
      destruct (save_conversation env sid m w0) as [r5 w5] eqn:Hsv
  end.
  simpl in Hs0, Ht5, Hf5, Hb5. subst r5. simpl.
  do 2 (split; [reflexivity|]). exists []. split; [|constructor]. congruence.
Qed.

(** [X3] When the stored log cannot be read (for instance the session's
    path is a directory), a chat turn answers 500 with [str(e)] without
    calling Bedrock or writing anything, and [GET /conversation/{id}]
    answers 500 with the same detail. *)
Theorem chat_load_failure_skips_bedrock (env : Env) (req : ChatRequest) (w w1 : World)
    (sid : string) (e : Exn)
    (Hsid : resolve_session_id env (session_id req) w = (Ok sid, w1))
    (Hload : fst (load_conversation env sid w1) = Raise e) :
  chat env req w = (Raise (EHTTP 500 (exn_str e)), w1) /\
  get_conversation env sid w1 = (Raise (EHTTP 500 (exn_str e)), w1) /\
  store_eq w w1.
Proof.
  destruct (resolve_session_id_ok env (session_id req) w) as (sid' & _ & Hst).
  rewrite Hsid in Hst. simpl in Hst.
  pose proof (load_conversation_not_http env sid w1 e Hload) as Hnh.
  pose proof (load_conversation_world env sid w1) as Hw.
  destruct (load_conversation env sid w1) as [r1 w2] eqn:Hl.
  simpl in Hw, Hload. subst r1 w2.
  split; [|split; [|exact Hst]].
  - unfold chat, try_except.
    rewrite (bind_ok_eq _ _ _ _ _ Hsid). cbv beta.
    rewrite (bind_raise_eq _ _ _ _ _ Hl).
    destruct e as [c t|s d|t]; [reflexivity|exfalso; exact (Hnh s d eq_refl)|reflexivity].
  - unfold get_conversation, try_except.
    rewrite (bind_raise_eq _ _ _ _ _ Hl). reflexivity.
Qed.

(** [X4] [GET /conversation/{id}] is read-only: it leaves the machine
    exactly as it was (files, directories, objects, calls made, clock and
    uuid readings). *)
Theorem get_conversation_read_only (env : Env) (sid : string) (w : World) :
  snd (get_conversation env sid w) = w.
Proof.
  unfold get_conversation, try_except, bind.
  pose proof (load_conversation_world env sid w) as Hw.
  destruct (load_conversation env sid w) as [[c|e] w1]; simpl in *; subst; reflexivity.
Qed.

(** [X5] A conversation started without a session id can be read back
    with the id the turn returns: that id is the next [uuid4()], and when
    nothing was stored under it, [GET /conversation/{id}] returns exactly
    the user message and the reply. *)
Theorem fresh_session_roundtrip (env : Env) (msg : string) (w : World)
    (resp : ChatResponse) (w' : World)
    (Hnone : let sid := uuid4 env (w_uuid_reads w) in
             if USE_S3 env then w_s3 w !! get_memory_path sid = None
             else let p := resolve (cwd env) (os_path_join (MEMORY_DIR env) (get_memory_path sid)) in
                  is_dir w p = false /\ w_files w !! p = None)
    (Hok : chat env (mkChatRequest msg None) w = (Ok resp, w')) :
  resp_session_id resp = uuid4 env (w_uuid_reads w) /\
  get_conversation env (resp_session_id resp) w' =
    (Ok (mkConversationView (resp_session_id resp)
           [mkMessage "user" msg (clock env (w_clock_reads w));
            mkMessage "assistant" (response resp) (clock env (S (w_clock_reads w)))]), w').
Proof.
  apply chat_ok_inv in Hok as (w1 & conv & Hs & Hl & Hc & Hsave).
  simpl in Hs. injection Hs as Hsid <-.
  split; [symmetry; exact Hsid|].
  rewrite Hsid in Hnone.
  assert (H0 : fst (load_conversation env (resp_session_id resp) w) = Ok []).
  { cbv zeta in Hnone. unfold load_conversation. destruct (USE_S3 env).
    - unfold try_except, s3_get_object. rewrite Hnone. reflexivity.
    - destruct Hnone as [Hd Hf].
      unfold bind, os_path_exists, is_file. simpl. rewrite Hd, Hf. reflexivity. }
  pose proof (load_conversation_store env (resp_session_id resp) w
                (mkWorld (w_dirs w) (w_files w) (w_s3 w) (w_trace w) (w_clock_reads w)
                         (S (w_uuid_reads w))) eq_refl eq_refl eq_refl) as Heq.
  rewrite Hl, H0 in Heq. simpl in Heq. injection Heq as ->.
  simpl in Hsave. apply load_after_save in Hsave.
  unfold get_conversation, try_except.
  rewrite (bind_ok_eq _ _ _ _ _ Hsave). reflexivity.
Qed.

(** [X6] A chat turn works on one backend only: with [USE_S3] it changes
    no local file or directory, without it it changes no object of the
    bucket. *)
Theorem chat_touches_one_backend (env : Env) (req : ChatRequest) (w : World) :
  if USE_S3 env then
    w_files (snd (chat env req w)) = w_files w /\ w_dirs (snd (chat env req w)) = w_dirs w
  else w_s3 (snd (chat env req w)) = w_s3 w.
Proof.
  destruct (chat env req w) as [r w'] eqn:Hc. simpl.
  destruct (chat_shape env req w _ _ Hc)
    as [(e0 & _ & Hd & Hf & Hb & _)|(sid & msgs & w2 & ms & r0 & Hd & Hf & Hb & Ht & Hsv & Hr)].
  - destruct (USE_S3 env); auto.
  - pose proof (save_backend env sid msgs w2) as Hbk. rewrite Hsv in Hbk. simpl in Hbk.
    destruct (USE_S3 env); [destruct Hbk; split|]; congruence.
Qed.

(** ** Counterexamples *)

(** [C3] The timestamps are two readings of the local wall clock: when the
    clock is set back between them, the user message of the turn carries a
    later timestamp than the assistant reply. *)
Lemma chat_timestamps_follow_wall_clock :
  fst (load_conversation (demo_env false demo_reply setback_clock) "s1"
        (snd (chat (demo_env false demo_reply setback_clock) (req_hi (Some "s1")) demo_world)))
  = Ok [mkMessage "user" "hi" t0; mkMessage "assistant" "Hello!" (t0 - 3600000000 + 1)] /\
  t0 - 3600000000 + 1 < t0.
Proof. split; [vm_compute; reflexivity|unfold t0; lia]. Qed.

(** [C6] A request with [session_id = ""] is answered under a generated
    id, not under the id it supplied. *)
Lemma chat_empty_session_id_replaced :
  fst (chat (demo_env false demo_reply steady_clock) (req_hi (Some "")) demo_world)
  = Ok (mkChatResponse "Hello!" "uuid-0") /\ "uuid-0" <> "".
Proof. split; [vm_compute; reflexivity|discriminate]. Qed.

(** [C8] On the local backend the distinct ids ["a"] and ["./a"] name the
    same file: a save for ["a"] changes the stored record of ["./a"]. *)
Lemma session_ids_alias_on_disk :
  "a" <> "./a" /\
  record_of (demo_env false demo_reply steady_clock) demo_world "./a" = None /\
  record_of (demo_env false demo_reply steady_clock)
    (snd (save_conversation (demo_env false demo_reply steady_clock) "a" (demo_log 2) demo_world))
    "./a" = Some (mkDoc 2 (demo_log 2)).
Proof. split; [discriminate|split; vm_compute; reflexivity]. Qed.

(** [C9] The session id ["/tmp/evil"] is stored as [/tmp/evil.json],
    outside [MEMORY_DIR] (which resolves to [/memory]). *)
Lemma session_file_outside_memory_dir :
  resolve (cwd (demo_env false demo_reply steady_clock))
          (MEMORY_DIR (demo_env false demo_reply steady_clock)) = ["memory"] /\
  fst (save_conversation (demo_env false demo_reply steady_clock) "/tmp/evil" [] demo_world) = Ok tt /\
  w_files (snd (save_conversation (demo_env false demo_reply steady_clock) "/tmp/evil" [] demo_world))
    = {[ ["tmp"; "evil.json"] := mkDoc 2 [] ]}.
Proof. split; [|split]; vm_compute; reflexivity. Qed.

(** ** Witnesses *)

Lemma chat_inference_failure_persists_nothing_witness :
  (forall ms, exists e, converse env_denied ms = inl e) /\
  let '(r, w') := chat env_denied (req_hi (Some "s1")) world25 in
  (exists e, r = Raise e) /\
  w_files w' = w_files world25 /\ w_s3 w' = w_s3 world25 /\ w_dirs w' = w_dirs world25 /\
  exists evs, w_trace w' = w_trace world25 ++ evs /\
              Forall (fun ev => exists ms, ev = EvConverse ms) evs.
Proof.
  assert (H : forall ms, exists e, converse env_denied ms = inl e)
    by (intros ms; eexists; reflexivity).
  split; [exact H|].
  exact (chat_inference_failure_persists_nothing env_denied (req_hi (Some "s1")) world25 H).
Defined.

Lemma chat_context_window_witness :
  chat env_local (req_hi (Some "s1")) world25 = (Ok (mkChatResponse "Hello!" "s1"), world25_after) /\
  fst (load_conversation env_local "s1" world25) = Ok (demo_log 25) /\
  exists pre suf ev,
    demo_log 25 = pre ++ suf /\ length suf = Nat.min (length (demo_log 25)) 20 /\
    w_trace world25_after = w_trace world25 ++
      [EvConverse (system_entry env_local :: map to_bmsg suf ++ [mkBMsg "user" ["hi"]]); ev] /\
    exists u a, fst (load_conversation env_local "s1" world25_after) = Ok (demo_log 25 ++ [u; a]).
Proof.
  assert (Hok : chat env_local (req_hi (Some "s1")) world25
                = (Ok (mkChatResponse "Hello!" "s1"), world25_after))
    by (vm_compute; reflexivity).
  assert (Hl : fst (load_conversation env_local "s1" world25) = Ok (demo_log 25))
    by (vm_compute; reflexivity).
  split; [exact Hok|split; [exact Hl|]].
  exact (chat_context_window env_local (req_hi (Some "s1")) world25 _ world25_after _ Hok Hl).
Defined.

Lemma chat_appends_turn_witness :
  chat env_local (req_hi (Some "s1")) world25 = (Ok (mkChatResponse "Hello!" "s1"), world25_after) /\
  fst (load_conversation env_local "s1" world25) = Ok (demo_log 25) /\
  fst (load_conversation env_local "s1" world25_after) =
    Ok (demo_log 25 ++ [mkMessage "user" "hi" (steady_clock 0);
                        mkMessage "assistant" "Hello!" (steady_clock 1)]) /\
  w_clock_reads world25_after = 2%nat.
Proof.
  assert (Hok : chat env_local (req_hi (Some "s1")) world25
                = (Ok (mkChatResponse "Hello!" "s1"), world25_after))
    by (vm_compute; reflexivity).
  assert (Hl : fst (load_conversation env_local "s1" world25) = Ok (demo_log 25))
    by (vm_compute; reflexivity).
  split; [exact Hok|split; [exact Hl|]].
  exact (chat_appends_turn env_local (req_hi (Some "s1")) world25 _ world25_after _ Hok Hl).
Defined.

Lemma missing_session_loads_empty_witness :
  (is_dir demo_world (resolve ["app"] (os_path_join "../memory" "new.json")) = false /\
   w_files demo_world !! resolve ["app"] (os_path_join "../memory" "new.json") = None) /\
  load_conversation env_local "new" demo_world = (Ok [], demo_world) /\
  get_conversation env_local "new" demo_world = (Ok (mkConversationView "new" []), demo_world) /\
  http_status (fst (get_conversation env_local "new" demo_world)) = 200.
Proof.
  assert (H : is_dir demo_world (resolve ["app"] (os_path_join "../memory" "new.json")) = false /\
              w_files demo_world !! resolve ["app"] (os_path_join "../memory" "new.json") = None)
    by (split; vm_compute; reflexivity).
  split; [exact H|].
  exact (missing_session_loads_empty env_local demo_world "new" H).
Defined.

Lemma chat_inference_error_mapping_witness :
  resolve_session_id env_invalid_s3 (session_id (req_hi (Some "s1"))) demo_world
    = (Ok "s1", demo_world) /\
  fst (load_conversation env_invalid_s3 "s1" demo_world) = Ok [] /\
  converse env_invalid_s3 (build_messages env_invalid_s3 [] "hi")
    = inl (EClient "ValidationException"
             "An error occurred (ValidationException) when calling the Converse operation") /\
  let '(r, w') := chat env_invalid_s3 (req_hi (Some "s1")) demo_world in
  w_trace w' = w_trace demo_world ++ [EvConverse (build_messages env_invalid_s3 [] "hi")] /\
  w_files w' = w_files demo_world /\ w_s3 w' = w_s3 demo_world /\
  (forall t, EClient "ValidationException"
               "An error occurred (ValidationException) when calling the Converse operation"
             = EClient "ValidationException" t ->
     r = Raise (EHTTP 400 "Invalid message format for Bedrock") /\ http_status r = 400) /\
  (forall t, EClient "ValidationException"
               "An error occurred (ValidationException) when calling the Converse operation"
             = EClient "AccessDeniedException" t ->
     r = Raise (EHTTP 403 "Access denied to Bedrock model") /\ http_status r = 403) /\
  (forall code t, EClient "ValidationException"
               "An error occurred (ValidationException) when calling the Converse operation"
             = EClient code t ->
     code <> "ValidationException" -> code <> "AccessDeniedException" ->
     r = Raise (EHTTP 500 ("Bedrock error: " +:+ t)) /\ http_status r = 500) /\
  (forall t, EClient "ValidationException"
               "An error occurred (ValidationException) when calling the Converse operation"
             = EOther t -> r = Raise (EHTTP 500 t) /\ http_status r = 500).
Proof.
  assert (H1 : resolve_session_id env_invalid_s3 (session_id (req_hi (Some "s1"))) demo_world
               = (Ok "s1", demo_world)) by reflexivity.
  assert (H2 : fst (load_conversation env_invalid_s3 "s1" demo_world) = Ok [])
    by (vm_compute; reflexivity).
  assert (H3 : converse env_invalid_s3 (build_messages env_invalid_s3 [] "hi")
    = inl (EClient "ValidationException"
             "An error occurred (ValidationException) when calling the Converse operation"))
    by reflexivity.
  split; [exact H1|split; [exact H2|split; [exact H3|]]].
  exact (chat_inference_error_mapping env_invalid_s3 (req_hi (Some "s1")) demo_world demo_world
           "s1" [] _ H1 H2 H3).
Defined.

Lemma chat_session_id_resolution_witness :
  chat env_local (req_hi (Some "s1")) world25 = (Ok (mkChatResponse "Hello!" "s1"), world25_after) /\
  ((exists s, session_id (req_hi (Some "s1")) = Some s /\ s <> "" /\ "s1" = s) \/
   ((session_id (req_hi (Some "s1")) = None \/ session_id (req_hi (Some "s1")) = Some "") /\
    "s1" = uuid4 env_local (w_uuid_reads world25))) /\
  exists conv u a,
    fst (load_conversation env_local "s1" world25) = Ok conv /\
    fst (load_conversation env_local "s1" world25_after) = Ok (conv ++ [u; a]).
Proof.
  assert (Hok : chat env_local (req_hi (Some "s1")) world25
                = (Ok (mkChatResponse "Hello!" "s1"), world25_after))
    by (vm_compute; reflexivity).
  split; [exact Hok|].
  exact (chat_session_id_resolution env_local (req_hi (Some "s1")) world25 _ world25_after Hok).
Defined.

Lemma save_then_load_roundtrip_witness :
  save_conversation env_local "s1" (demo_log 2) demo_world = (Ok tt, world_saved) /\
  load_conversation env_local "s1" world_saved = (Ok (demo_log 2), world_saved).
Proof.
  assert (H : save_conversation env_local "s1" (demo_log 2) demo_world = (Ok tt, world_saved))
    by (vm_compute; reflexivity).
  split; [exact H|].
  exact (save_then_load_roundtrip env_local "s1" (demo_log 2) demo_world world_saved H).
Defined.

Lemma session_isolation_witness :
  "a" <> "b" /\ (USE_S3 env_local = true \/ (no_slash "a" = true /\ no_slash "b" = true)) /\
  session_id (req_hi (Some "a")) = Some "a" /\ "a" <> "" /\
  record_of env_local (snd (save_conversation env_local "a" (demo_log 2) demo_world)) "b"
    = record_of env_local demo_world "b" /\
  record_of env_local (snd (chat env_local (req_hi (Some "a")) demo_world)) "b"
    = record_of env_local demo_world "b".
Proof.
  assert (H1 : "a" <> "b") by discriminate.
  assert (H2 : USE_S3 env_local = true \/ (no_slash "a" = true /\ no_slash "b" = true))
    by (right; split; reflexivity).
  assert (H3 : session_id (req_hi (Some "a")) = Some "a") by reflexivity.
  assert (H4 : "a" <> "") by discriminate.
  split; [exact H1|split; [exact H2|split; [exact H3|split; [exact H4|]]]].
  exact (session_isolation env_local "a" "b" (demo_log 2) (req_hi (Some "a")) demo_world
           H1 H2 H3 H4).
Defined.

Lemma persisted_layout_witness :
  (USE_S3 env_local = true \/ no_slash "s1" = true) /\
  save_conversation env_local "s1" (demo_log 2) demo_world = (Ok tt, world_saved) /\
  w_files world_saved = <[["memory"] ++ ["s1" +:+ ".json"] := mkDoc 2 (demo_log 2)]>
                          (w_files demo_world) /\
  w_s3 world_saved = w_s3 demo_world.
Proof.
  assert (H1 : USE_S3 env_local = true \/ no_slash "s1" = true) by (right; reflexivity).
  assert (H2 : save_conversation env_local "s1" (demo_log 2) demo_world = (Ok tt, world_saved))
    by (vm_compute; reflexivity).
  split; [exact H1|split; [exact H2|]].
  exact (persisted_layout env_local "s1" (demo_log 2) demo_world world_saved H1 H2).
Defined.

Lemma chat_save_failure_after_reply_witness :
  resolve_session_id env_local (session_id (req_hi (Some "sub/x"))) demo_world
    = (Ok "sub/x", demo_world) /\
  fst (load_conversation env_local "sub/x" demo_world) = Ok [] /\
  converse env_local (build_messages env_local [] (message (req_hi (Some "sub/x"))))
    = inr "Hello!" /\
  (forall msgs w0, w_dirs w0 = w_dirs demo_world -> w_files w0 = w_files demo_world ->
     fst (save_conversation env_local "sub/x" msgs w0) = Raise (EOther "FileNotFoundError")) /\
  let '(r, w') := chat env_local (req_hi (Some "sub/x")) demo_world in
  r = Raise (EHTTP 500 (exn_str (EOther "FileNotFoundError"))) /\ http_status r = 500 /\
  exists evs, w_trace w' = w_trace demo_world ++
    EvConverse (build_messages env_local [] (message (req_hi (Some "sub/x")))) :: evs /\
    Forall (fun ev => forall ms, ev <> EvConverse ms) evs.
Proof.
  assert (H1 : resolve_session_id env_local (session_id (req_hi (Some "sub/x"))) demo_world
                 = (Ok "sub/x", demo_world)) by (vm_compute; reflexivity).
  assert (H2 : fst (load_conversation env_local "sub/x" demo_world) = Ok [])
    by (vm_compute; reflexivity).
  assert (H3 : converse env_local (build_messages env_local [] (message (req_hi (Some "sub/x"))))
                 = inr "Hello!") by reflexivity.
  assert (H4 : forall msgs w0, w_dirs w0 = w_dirs demo_world ->
                 w_files w0 = w_files demo_world ->
                 fst (save_conversation env_local "sub/x" msgs w0)
                   = Raise (EOther "FileNotFoundError")).
  { intros msgs [d f b tr c u] Hd Hf. simpl in Hd, Hf. subst d f.
    vm_compute. reflexivity. }
  split; [exact H1|split; [exact H2|split; [exact H3|split; [exact H4|]]]].
  exact (chat_save_failure_after_reply env_local (req_hi (Some "sub/x")) demo_world demo_world
           "sub/x" [] "Hello!" (EOther "FileNotFoundError") H1 H2 H3 H4).
Defined.

Lemma chat_load_failure_skips_bedrock_witness :
  resolve_session_id env_local (session_id (req_hi (Some "d"))) world_dir_session
    = (Ok "d", world_dir_session) /\
  fst (load_conversation env_local "d" world_dir_session) = Raise (EOther "IsADirectoryError") /\
  chat env_local (req_hi (Some "d")) world_dir_session
    = (Raise (EHTTP 500 (exn_str (EOther "IsADirectoryError"))), world_dir_session) /\
  get_conversation env_local "d" world_dir_session
    = (Raise (EHTTP 500 (exn_str (EOther "IsADirectoryError"))), world_dir_session) /\
  store_eq world_dir_session world_dir_session.
Proof.
  assert (H1 : resolve_session_id env_local (session_id (req_hi (Some "d"))) world_dir_session
                 = (Ok "d", world_dir_session)) by (vm_compute; reflexivity).
  assert (H2 : fst (load_conversation env_local "d" world_dir_session)
                 = Raise (EOther "IsADirectoryError")) by (vm_compute; reflexivity).
  split; [exact H1|split; [exact H2|]].
  exact (chat_load_failure_skips_bedrock env_local (req_hi (Some "d")) world_dir_session
           world_dir_session "d" (EOther "IsADirectoryError") H1 H2).
Defined.

Lemma fresh_session_roundtrip_witness :
  (let sid := uuid4 env_local (w_uuid_reads demo_world) in
   if USE_S3 env_local then w_s3 demo_world !! get_memory_path sid = None
   else let p := resolve (cwd env_local)
                   (os_path_join (MEMORY_DIR env_local) (get_memory_path sid)) in
        is_dir demo_world p = false /\ w_files demo_world !! p = None) /\
  chat env_local (mkChatRequest "hi" None) demo_world
    = (Ok (mkChatResponse "Hello!" "uuid-0"), world_fresh_after) /\
  resp_session_id (mkChatResponse "Hello!" "uuid-0") = uuid4 env_local (w_uuid_reads demo_world) /\
  get_conversation env_local (resp_session_id (mkChatResponse "Hello!" "uuid-0")) world_fresh_after =
    (Ok (mkConversationView (resp_session_id (mkChatResponse "Hello!" "uuid-0"))
           [mkMessage "user" "hi" (clock env_local (w_clock_reads demo_world));
            mkMessage "assistant" (response (mkChatResponse "Hello!" "uuid-0"))
              (clock env_local (S (w_clock_reads demo_world)))]), world_fresh_after).
Proof.
  assert (H1 : let sid := uuid4 env_local (w_uuid_reads demo_world) in
               if USE_S3 env_local then w_s3 demo_world !! get_memory_path sid = None
               else let p := resolve (cwd env_local)
                               (os_path_join (MEMORY_DIR env_local) (get_memory_path sid)) in
                    is_dir demo_world p = false /\ w_files demo_world !! p = None).
  { vm_compute. split; reflexivity. }
  assert (H2 : chat env_local (mkChatRequest "hi" None) demo_world
                 = (Ok (mkChatResponse "Hello!" "uuid-0"), world_fresh_after))
    by (vm_compute; reflexivity).
  split; [exact H1|split; [exact H2|]].
  exact (fresh_session_roundtrip env_local "hi" demo_world (mkChatResponse "Hello!" "uuid-0")
           world_fresh_after H1 H2).
Defined.

(** ** Properties of deploy.py *)

Import Deploy.

Lemma dbind_ok {A B} (m : DM A) (k : A -> DM B) s a s1 :
  m s = (DOk a, s1) -> dbind m k s = k a s1.
Proof. unfold dbind. intros ->. reflexivity. Qed.

Lemma dbind_raise {A B} (m : DM A) (k : A -> DM B) s e s1 :
  m s = (DRaise e, s1) -> dbind m k s = (DRaise e, s1).
Proof. unfold dbind. intros ->. reflexivity. Qed.

Lemma dtry_ok {A} (m : DM A) h s a s1 :
  m s = (DOk a, s1) -> dtry m h s = (DOk a, s1).
Proof. unfold dtry. intros ->. reflexivity. Qed.

Lemma dtry_raise {A} (m : DM A) h s e s1 :
  m s = (DRaise e, s1) -> dtry m h s = h e s1.
Proof. unfold dtry. intros ->. reflexivity. Qed.

Lemma run_ok env argv check s :
  run_status env argv = Some 0 ->
  subprocess_run env argv check s =
    (DOk tt, mkDState (command_effect argv (d_paths s)) (d_trace s ++ [DRun argv])).
Proof. intros H. unfold subprocess_run. rewrite H. destruct check; reflexivity. Qed.

Lemma run_fail env argv check s n :
  run_status env argv = Some n -> n <> 0 ->
  subprocess_run env argv check s =
    (if check then DRaise (CalledProcessError argv n) else DOk tt,
     mkDState (d_paths s) (d_trace s ++ [DRun argv])).
Proof.
  intros H Hn. unfold subprocess_run. rewrite H.
  apply Z.eqb_neq in Hn. rewrite Hn. destruct check; reflexivity.
Qed.

Lemma run_missing env argv check s :
  run_status env argv = None ->
  subprocess_run env argv check s =
    (DRaise (FileNotFoundError (hd "" argv)), mkDState (d_paths s) (d_trace s ++ [DRun argv])).
Proof. intros H. unfold subprocess_run. rewrite H. reflexivity. Qed.

Lemma command_effect_docker env c P : command_effect (docker_argv env c) P = P.
Proof. reflexivity. Qed.

Lemma command_effect_pip env P : command_effect (pip_cmd env) P = P.
Proof. unfold pip_cmd. destruct (String.eqb _ _); reflexivity. Qed.

(** The first probe, [docker --version], fails: [probe_failed] swallows
    the error. *)
Lemma docker_version_fails env s :
  run_status env ["docker"; "--version"] <> Some 0 ->
  dtry (dbind (subprocess_run env ["docker"; "--version"] true)
              (fun _ => dret (Some "docker"))) probe_failed s =
    (DOk None, mkDState (d_paths s) (d_trace s ++ [DRun ["docker"; "--version"]])).
Proof.
  intros Hv.
  destruct (run_status env ["docker"; "--version"]) as [n|] eqn:E.
  - assert (Hn : n <> 0) by congruence.
    rewrite (dtry_raise _ _ _ _ _ (dbind_raise _ _ _ _ _ (run_fail env _ true s n E Hn))).
    reflexivity.
  - rewrite (dtry_raise _ _ _ _ _ (dbind_raise _ _ _ _ _ (run_missing env _ true s E))).
    reflexivity.
Qed.

Lemma find_docker_on_path env s :
  run_status env ["docker"; "--version"] = Some 0 ->
  find_docker env s =
    (DOk (Some "docker"), mkDState (d_paths s) (d_trace s ++ [DRun ["docker"; "--version"]])).
Proof.
  intros Hv. unfold find_docker, dbind, dtry, dret.
  rewrite (run_ok env _ true s Hv). reflexivity.
Qed.

Lemma find_docker_wsl env s :
  run_status env ["docker"; "--version"] <> Some 0 ->
  windows_docker_path ∈ d_paths s ->
  run_status env [windows_docker_path; "info"] = Some 0 ->
  find_docker env s =
    (DOk (Some windows_docker_path),
     mkDState (d_paths s) (d_trace s ++ [DRun ["docker"; "--version"];
                                         DRun [windows_docker_path; "info"]])).
Proof.
  intros Hv Hw Hi. unfold find_docker.
  rewrite (dbind_ok _ _ _ _ _ (docker_version_fails env s Hv)).
  unfold dbind at 1, os_path_exists. simpl.
  rewrite bool_decide_eq_true_2 by exact Hw.
  apply dtry_ok.
  rewrite (dbind_ok _ _ _ _ _ (run_ok env _ true _ Hi)).
  simpl. rewrite <- app_assoc. reflexivity.
Qed.

Lemma find_docker_none env s :
  run_status env ["docker"; "--version"] <> Some 0 ->
  windows_docker_path ∉ d_paths s \/ run_status env [windows_docker_path; "info"] <> Some 0 ->
  find_docker env s =
    (DOk None,
     mkDState (d_paths s)
       (d_trace s ++ [DRun ["docker"; "--version"]] ++
        (if bool_decide (windows_docker_path ∈ d_paths s)
         then [DRun [windows_docker_path; "info"]] else []))).
Proof.
  intros Hv Hw. unfold find_docker.
  rewrite (dbind_ok _ _ _ _ _ (docker_version_fails env s Hv)).
  unfold dbind at 1, os_path_exists. simpl.
  destruct (bool_decide (windows_docker_path ∈ d_paths s)) eqn:E.
  - apply bool_decide_eq_true_1 in E.
    assert (Hi : run_status env [windows_docker_path; "info"] <> Some 0)
      by (destruct Hw; [contradiction|assumption]).
    destruct (run_status env [windows_docker_path; "info"]) as [n|] eqn:Ei.
    + assert (Hn : n <> 0) by congruence.
      rewrite (dtry_raise _ _ _ _ _ (dbind_raise _ _ _ _ _ (run_fail env _ true _ n Ei Hn))).
      simpl. rewrite <- app_assoc. reflexivity.
    + rewrite (dtry_raise _ _ _ _ _ (dbind_raise _ _ _ _ _ (run_missing env _ true _ Ei))).
      simpl. rewrite <- app_assoc. reflexivity.
  - simpl. rewrite ?app_nil_r. reflexivity.
Qed.

(** With a Docker command found, [install_dependencies] runs [docker run]
    and goes on whatever its exit status. *)
Lemma install_with_docker env c s s1 :
  find_docker env s = (DOk (Some c), s1) ->
  install_dependencies env s =
    (match run_status env (docker_argv env c) with
     | None => DRaise (FileNotFoundError c)
     | Some _ => DOk tt
     end,
     mkDState (d_paths s1) (d_trace s1 ++ [DRun (docker_argv env c)])).
Proof.
  intros Hf. unfold install_dependencies.
  rewrite (dbind_ok _ _ _ _ _ Hf).
  destruct (run_status env (docker_argv env c)) as [n|] eqn:E.
  - destruct (Z.eq_dec n 0) as [->|Hn].
    + rewrite (dtry_ok _ _ _ _ _ (run_ok env _ true s1 E)). reflexivity.
    + rewrite (dtry_raise _ _ _ _ _ (run_fail env _ true s1 n E Hn)). reflexivity.
  - rewrite (dtry_raise _ _ _ _ _ (run_missing env _ true s1 E)). reflexivity.
Qed.

Lemma install_without_docker env s s1 :
  find_docker env s = (DOk None, s1) ->
  install_dependencies env s = subprocess_run env (pip_cmd env) true s1.
Proof. intros Hf. unfold install_dependencies. rewrite (dbind_ok _ _ _ _ _ Hf). reflexivity. Qed.

Lemma filter_ext_in {A} (P1 P2 : A -> Prop) `{forall x, Decision (P1 x)}
    `{forall x, Decision (P2 x)} (l : list A) :
  (forall x, x ∈ l -> (P1 x <-> P2 x)) -> filter P1 l = filter P2 l.
Proof.
  induction l as [|x l IH]; intros Hx; [reflexivity|].
  rewrite !filter_cons.
  assert (Hl : forall y, y ∈ l -> (P1 y <-> P2 y))
    by (intros y Hy; apply Hx; apply list_elem_of_further, Hy).
  specialize (Hx x (list_elem_of_here x l)).
  destruct (decide (P1 x)), (decide (P2 x)); try tauto; rewrite (IH Hl); reflexivity.
Qed.

Lemma copy_files_step f fs s :
  copy_files (f :: fs) s =
    copy_files fs (if bool_decide (f ∈ d_paths s)
                   then mkDState ({["lambda-package/" +:+ f]} ∪ d_paths s)
                                 (d_trace s ++ [DCopy f "lambda-package/"])
                   else s).
Proof.
  cbn [copy_files]. unfold dbind, os_path_exists.
  destruct (bool_decide (f ∈ d_paths s)); reflexivity.
Qed.

(** The copy loop copies, in order, the files of the list that exist. *)
Lemma copy_files_run fs s :
  Forall (fun f => forall g, f <> "lambda-package/" +:+ g) fs ->
  fst (copy_files fs s) = DOk tt /\
  d_trace (snd (copy_files fs s)) =
    d_trace s ++ map (fun f => DCopy f "lambda-package/") (filter (fun f => f ∈ d_paths s) fs) /\
  (forall p, p ∈ d_paths (snd (copy_files fs s)) <->
             p ∈ d_paths s \/ exists f, f ∈ fs /\ p = "lambda-package/" +:+ f /\ f ∈ d_paths s).
Proof.
  revert s. induction fs as [|f fs IH]; intros s Hfs.
  - simpl. rewrite app_nil_r. split; [reflexivity|split; [reflexivity|]].
    intros p. split; [left; exact H|intros [Hp|(g & Hg & _)]; [exact Hp|inversion Hg]].
  - apply Forall_cons in Hfs as [Hf Hfs].
    rewrite copy_files_step, filter_cons.
    case_bool_decide as Hin.
    + rewrite decide_True by exact Hin.
      set (s1 := mkDState ({["lambda-package/" +:+ f]} ∪ d_paths s)
                          (d_trace s ++ [DCopy f "lambda-package/"])).
      destruct (IH s1 Hfs) as (Hr & Ht & Hp).
      destruct (copy_files fs s1) as [r s2]. simpl in *.
      split; [exact Hr|split].
      * rewrite Ht, <- app_assoc. simpl. f_equal. f_equal. f_equal.
        apply filter_ext_in. intros g Hg. subst s1. simpl.
        rewrite elem_of_union, elem_of_singleton.
        split; [|tauto]. intros [->|H]; [|exact H].
        exfalso. apply Forall_forall with (x := "lambda-package/" +:+ f) in Hfs;
          [exact (Hfs f eq_refl)|exact Hg].
      * intros p. rewrite Hp. subst s1. simpl.
        rewrite elem_of_union, elem_of_singleton. split.
        { intros [[->|Hq]|(g & Hg & -> & Hgi)].
          - right. exists f. split; [left|split; [reflexivity|exact Hin]].
          - left. exact Hq.
          - right. exists g. split; [right; exact Hg|split; [reflexivity|]].
            rewrite elem_of_union in Hgi. destruct Hgi as [Hgi|Hgi]; [|exact Hgi].
            rewrite elem_of_singleton in Hgi. exfalso.
            apply Forall_forall with (x := g) in Hfs; [|exact Hg].
            exact (Hfs f Hgi). }
        { intros [Hq|(g & Hg & -> & Hgi)]; [left; right; exact Hq|].
          apply elem_of_cons in Hg as [->|Hg]; [left; left; reflexivity|].
          right. exists g. split; [exact Hg|split; [reflexivity|]].
          rewrite elem_of_union. right. exact Hgi. }
    + rewrite decide_False by exact Hin. rename Hin into Hout.
      destruct (IH s Hfs) as (Hr & Ht & Hp).
      destruct (copy_files fs s) as [r s2]. simpl in *.
      split; [exact Hr|split; [exact Ht|]].
      intros p. rewrite Hp. split.
      { intros [Hq|(g & Hg & -> & Hgi)]; [left; exact Hq|].
        right. exists g. split; [right; exact Hg|split; [reflexivity|exact Hgi]]. }
      { intros [Hq|(g & Hg & -> & Hgi)]; [left; exact Hq|].
        apply elem_of_cons in Hg as [->|Hg]; [contradiction|].
        right. exists g. auto. }
Qed.

Lemma app_files_plain : Forall (fun f => forall g, f <> "lambda-package/" +:+ g) app_files.
Proof.
  unfold app_files. repeat constructor; intros g H; rewrite str_app_cons in H; discriminate H.
Qed.

Lemma copy_application_run s :
  "lambda-package/data" ∉ d_paths s ->
  fst (copy_application s) = DOk tt /\
  d_trace (snd (copy_application s)) =
    d_trace s ++ map (fun f => DCopy f "lambda-package/") (filter (fun f => f ∈ d_paths s) app_files)
      ++ (if bool_decide ("data" ∈ d_paths s) then [DCopytree "data" "lambda-package/data"] else []) /\
  (forall p, p ∈ d_paths s -> p ∈ d_paths (snd (copy_application s))).
Proof.
  intros Hdata.
  destruct (copy_files_run app_files s app_files_plain) as (Hr & Ht & Hp).
  destruct (copy_files app_files s) as [r s1] eqn:Hcf. simpl in Hr, Ht, Hp. subst r.
  assert (Heq : copy_application s =
                  if bool_decide ("data" ∈ d_paths s1)
                  then shutil_copytree "data" "lambda-package/data" s1 else (DOk tt, s1)).
  { unfold copy_application. rewrite (dbind_ok _ _ _ _ _ Hcf).
    unfold dbind, os_path_exists. destruct (bool_decide _); reflexivity. }
  rewrite Heq.
  assert (Hd : bool_decide ("data" ∈ d_paths s1) = bool_decide ("data" ∈ d_paths s)).
  { apply bool_decide_ext. rewrite Hp. split; [|tauto].
    intros [H|(g & Hg & Hgd & _)]; [exact H|].
    exfalso. revert Hgd.
    repeat (apply elem_of_cons in Hg as [->|Hg]; [intros H; vm_compute in H; discriminate H|]).
    inversion Hg. }
  assert (Hd2 : "lambda-package/data" ∉ d_paths s1).
  { rewrite Hp. intros [H|(g & Hg & Hgd & _)]; [exact (Hdata H)|].
    revert Hgd.
    repeat (apply elem_of_cons in Hg as [->|Hg]; [intros H; vm_compute in H; discriminate H|]).
    inversion Hg. }
  rewrite Hd.
  destruct (bool_decide ("data" ∈ d_paths s)).
  - unfold shutil_copytree, record.
    rewrite bool_decide_eq_false_2 by exact Hd2. simpl.
    split; [reflexivity|split].
    + rewrite Ht, <- app_assoc. reflexivity.
    + intros p Hps. rewrite elem_of_union. right. apply Hp. left. exact Hps.
  - simpl. split; [reflexivity|split].
    + rewrite Ht, app_nil_r. reflexivity.
    + intros p Hps. apply Hp. left. exact Hps.
Qed.

(** The state left by [clean_up] when the old package can be removed or
    there is none. *)
Lemma clean_up_ok env s :
  ("lambda-package" ∈ d_paths s /\ rmtree_allowed env = true) \/
  remove_tree "lambda-package" (d_paths s) = d_paths s ->
  exists P1 evs,
    clean_up env s = (DOk tt, mkDState P1 (d_trace s ++ evs)) /\
    (forall p, p ∈ P1 <-> p ∈ remove_tree "lambda-package" (d_paths s) /\
                          p <> "lambda-deployment.zip") /\
    Forall (fun ev => ev = DRmtree "lambda-package" \/ ev = DRemove "lambda-deployment.zip") evs.
Proof.
  intros Hc.
  assert (Hzip : forall P tr,
    exists P1 evs,
      dbind (os_path_exists "lambda-deployment.zip")
        (fun ex2 => if ex2 then os_remove "lambda-deployment.zip" else dret tt) (mkDState P tr)
      = (DOk tt, mkDState P1 (tr ++ evs)) /\
      (forall p, p ∈ P1 <-> p ∈ P /\ p <> "lambda-deployment.zip") /\
      Forall (fun ev => ev = DRemove "lambda-deployment.zip") evs).
  { intros P tr. unfold dbind, os_path_exists. simpl.
    destruct (decide ("lambda-deployment.zip" ∈ P)) as [Hz|Hz].
    - rewrite bool_decide_eq_true_2 by exact Hz.
      exists (P ∖ {["lambda-deployment.zip"]}), [DRemove "lambda-deployment.zip"].
      split; [reflexivity|split; [|repeat constructor]].
      intros p. rewrite elem_of_difference, elem_of_singleton. tauto.
    - rewrite bool_decide_eq_false_2 by exact Hz.
      exists P, []. rewrite app_nil_r. split; [reflexivity|split; [|constructor]].
      intros p. split; [|tauto]. intros Hp. split; [exact Hp|congruence]. }
  unfold clean_up, dbind at 1, os_path_exists. simpl.
  destruct (decide ("lambda-package" ∈ d_paths s)) as [Hin|Hout].
  - rewrite bool_decide_eq_true_2 by exact Hin.
    assert (Hr : rmtree_allowed env = true).
    { destruct Hc as [[_ Hr]|Heq]; [exact Hr|].
      exfalso. rewrite <- Heq in Hin. unfold remove_tree in Hin.
      apply elem_of_filter in Hin as [[Hne _] _]. congruence. }
    unfold dbind at 1, dtry, shutil_rmtree, record. rewrite Hr. simpl.
    destruct (Hzip (remove_tree "lambda-package" (d_paths s))
                   (d_trace s ++ [DRmtree "lambda-package"])) as (P1 & evs & Heq & Hp & Hf).
    exists P1, (DRmtree "lambda-package" :: evs).
    rewrite <- app_assoc in Heq. split; [exact Heq|split; [exact Hp|]].
    constructor; [left; reflexivity|].
    eapply Forall_impl; [exact Hf|]. intros ev Hev. right. exact Hev.
  - rewrite bool_decide_eq_false_2 by exact Hout.
    unfold dbind at 1, dret. simpl.
    destruct s as [P0 tr0]. simpl in *.
    destruct (Hzip P0 tr0) as (P1 & evs & Heq & Hp & Hf).
    exists P1, evs. split; [exact Heq|split].
    + intros p. rewrite Hp.
      assert (Hrt : remove_tree "lambda-package" P0 = P0).
      { destruct Hc as [[Hin _]|Heq']; [contradiction|exact Heq']. }
      rewrite Hrt. reflexivity.
    + eapply Forall_impl; [exact Hf|]. intros ev Hev. right. exact Hev.
Qed.

Lemma remove_tree_package P :
  ("lambda-package" ∉ remove_tree "lambda-package" P) /\
  ("lambda-package/data" ∉ remove_tree "lambda-package" P).
Proof.
  unfold remove_tree. split; intros H; apply elem_of_filter in H as [[Hne Hpre] _].
  - exact (Hne eq_refl).
  - vm_compute in Hpre. discriminate Hpre.
Qed.

(** [X7] [docker] on the PATH wins: when [docker --version] succeeds,
    [install_dependencies] runs [docker run] with that command, never
    probes the Docker Desktop path under WSL, never runs [pip] directly,
    and returns normally even when [docker run] exits with an error. *)
Theorem install_prefers_docker (env : DEnv) (s : DState)
    (Hv : run_status env ["docker"; "--version"] = Some 0)
    (Hrun : run_status env (docker_argv env "docker") <> None) :
  install_dependencies env s =
    (DOk tt, mkDState (d_paths s)
               (d_trace s ++ [DRun ["docker"; "--version"]; DRun (docker_argv env "docker")])).
Proof.
  rewrite (install_with_docker env "docker" s _ (find_docker_on_path env s Hv)). simpl.
  destruct (run_status env (docker_argv env "docker")); [|contradiction].
  rewrite <- app_assoc. reflexivity.
Qed.

(** [X8] Docker Desktop under WSL is the second choice: when
    [docker --version] fails, the Windows [docker.exe] exists and its
    [info] succeeds, [docker run] is run with that executable. *)
Theorem install_uses_wsl_docker (env : DEnv) (s : DState)
    (Hv : run_status env ["docker"; "--version"] <> Some 0)
    (Hw : windows_docker_path ∈ d_paths s)
    (Hi : run_status env [windows_docker_path; "info"] = Some 0)
    (Hrun : run_status env (docker_argv env windows_docker_path) <> None) :
  install_dependencies env s =
    (DOk tt, mkDState (d_paths s)
               (d_trace s ++ [DRun ["docker"; "--version"]; DRun [windows_docker_path; "info"];
                              DRun (docker_argv env windows_docker_path)])).
Proof.
  rewrite (install_with_docker env windows_docker_path s _ (find_docker_wsl env s Hv Hw Hi)).
  simpl. destruct (run_status env (docker_argv env windows_docker_path)); [|contradiction].
  rewrite <- app_assoc. reflexivity.
Qed.

(** [X9] When both Docker probes fail in the ways the code catches
    ([docker --version] is not found or exits with an error, and the
    Windows [docker.exe] is absent, or its [info] is not found or exits
    with an error), the dependencies are installed by running [pip]
    directly, once, after the probes; the step succeeds exactly when that
    [pip] exits with status 0. *)
Theorem install_falls_back_to_pip (env : DEnv) (s : DState)
    (Hv : run_status env ["docker"; "--version"] <> Some 0)
    (Hw : windows_docker_path ∉ d_paths s \/ run_status env [windows_docker_path; "info"] <> Some 0) :
  d_trace (snd (install_dependencies env s)) =
    d_trace s ++ [DRun ["docker"; "--version"]] ++
      (if bool_decide (windows_docker_path ∈ d_paths s)
       then [DRun [windows_docker_path; "info"]] else []) ++ [DRun (pip_cmd env)] /\
  (fst (install_dependencies env s) = DOk tt <-> run_status env (pip_cmd env) = Some 0).
Proof.
  rewrite (install_without_docker env s _ (find_docker_none env s Hv Hw)).
  destruct (run_status env (pip_cmd env)) as [n|] eqn:E.
  - destruct (Z.eq_dec n 0) as [->|Hn].
    + rewrite (run_ok env _ true _ E). simpl. rewrite <- ?app_assoc. split; [reflexivity|tauto].
    + rewrite (run_fail env _ true _ n E Hn). simpl. rewrite <- ?app_assoc.
      split; [reflexivity|]. split; [discriminate|congruence].
  - rewrite (run_missing env _ true _ E). simpl. rewrite <- ?app_assoc.
    split; [reflexivity|]. split; discriminate.
Qed.

(** [X10] A failed [docker run] does not fall back to [pip]: when
    [docker --version] succeeds but [docker run] exits with an error,
    [main] still completes and writes [lambda-deployment.zip], and [pip]
    is never run directly (the package has no dependencies installed). *)
Theorem docker_failure_skips_pip (env : DEnv) (s : DState) (n : Z)
    (Hclean : ("lambda-package" ∈ d_paths s /\ rmtree_allowed env = true) \/
              remove_tree "lambda-package" (d_paths s) = d_paths s)
    (Hv : run_status env ["docker"; "--version"] = Some 0)
    (Hrun : run_status env (docker_argv env "docker") = Some n) (Hn : n <> 0) :
  fst (main env s) = DOk tt /\
  "lambda-deployment.zip" ∈ d_paths (snd (main env s)) /\
  exists evs, d_trace (snd (main env s)) = d_trace s ++ evs /\
    DRun (docker_argv env "docker") ∈ evs /\
    DZip "lambda-deployment.zip" "lambda-package" ∈ evs /\
    DRun (pip_cmd env) ∉ evs.
Proof.
  destruct (clean_up_ok env s Hclean) as (P1 & evs1 & Hcl & HP1 & Hev1).
  assert (Hlp : "lambda-package" ∉ P1)
    by (rewrite HP1; intros [H _]; exact (proj1 (remove_tree_package _) H)).
  assert (Hld : "lambda-package/data" ∉ P1)
    by (rewrite HP1; intros [H _]; exact (proj2 (remove_tree_package _) H)).
  unfold main. rewrite (dbind_ok _ _ _ _ _ Hcl).
  assert (Hmk : os_makedirs "lambda-package" (mkDState P1 (d_trace s ++ evs1)) =
                (DOk tt, mkDState ({["lambda-package"]} ∪ P1)
                                  ((d_trace s ++ evs1) ++ [DMakedirs "lambda-package"]))).
  { unfold os_makedirs, record. simpl. rewrite bool_decide_eq_false_2 by exact Hlp. reflexivity. }
  rewrite (dbind_ok _ _ _ _ _ Hmk).
  set (s2 := mkDState ({["lambda-package"]} ∪ P1) ((d_trace s ++ evs1) ++ [DMakedirs "lambda-package"])).
  pose proof (install_with_docker env "docker" s2 _ (find_docker_on_path env s2 Hv)) as Hin.
  rewrite Hrun in Hin. rewrite (dbind_ok _ _ _ _ _ Hin).
  set (s3 := mkDState _ _).
  assert (Hd3 : "lambda-package/data" ∉ d_paths s3).
  { subst s3 s2. simpl. rewrite elem_of_union, elem_of_singleton.
    intros [H|H]; [discriminate H|exact (Hld H)]. }
  destruct (copy_application_run s3 Hd3) as (Hr & Ht & _).
  destruct (copy_application s3) as [r s4] eqn:Hca. simpl in Hr, Ht. subst r.
  rewrite (dbind_ok _ _ _ _ _ Hca).
  unfold make_zip, record. simpl.
  split; [reflexivity|split].
  { rewrite elem_of_union, elem_of_singleton. left. reflexivity. }
  rewrite Ht. subst s3 s2. simpl.
  eexists. split.
  { rewrite <- !app_assoc. reflexivity. }
  split; [|split].
  - rewrite !elem_of_app. right. right. right. left. apply list_elem_of_here.
  - rewrite !elem_of_app. right. right. right. right. right. right. apply list_elem_of_here.
  - assert (Hlen : forall c, pip_cmd env <> docker_argv env c /\ pip_cmd env <> ["docker"; "--version"]).
    { intros c. unfold pip_cmd, docker_argv.
      destruct (String.eqb _ _); split; intros H; apply (f_equal length) in H; discriminate H. }
    rewrite !elem_of_app. intros [Hp|[Hp|[Hp|[Hp|[Hp|[Hp|Hp]]]]]];
      try (apply elem_of_cons in Hp as [Hp|Hp]; [|inversion Hp]).
    + eapply Forall_forall in Hev1; [|exact Hp]. destruct Hev1; discriminate.
    + discriminate.
    + apply (f_equal (fun ev => match ev with DRun a => a | _ => [] end)) in Hp.
      cbv beta iota in Hp. exact (proj2 (Hlen "docker") Hp).
    + apply (f_equal (fun ev => match ev with DRun a => a | _ => [] end)) in Hp.
      cbv beta iota in Hp. exact (proj1 (Hlen "docker") Hp).
    + apply list_elem_of_In, in_map_iff in Hp as (f & Hf & _). discriminate.
    + destruct (bool_decide _); [|inversion Hp].
      apply elem_of_cons in Hp as [Hp|Hp]; [discriminate|inversion Hp].
    + discriminate.
Qed.

(** [X11] A failing [pip] stops the build: without a usable Docker, when
    the direct [pip] install exits with an error, [main] raises
    [CalledProcessError], copies nothing, writes no zip, and no
    [lambda-deployment.zip] is left (an earlier one was deleted by the
    clean-up). *)
Theorem pip_failure_aborts_build (env : DEnv) (s : DState) (n : Z)
    (Hclean : ("lambda-package" ∈ d_paths s /\ rmtree_allowed env = true) \/
              remove_tree "lambda-package" (d_paths s) = d_paths s)
    (Hv : run_status env ["docker"; "--version"] <> Some 0)
    (Hw : windows_docker_path ∉ d_paths s \/ run_status env [windows_docker_path; "info"] <> Some 0)
    (Hpip : run_status env (pip_cmd env) = Some n) (Hn : n <> 0) :
  fst (main env s) = DRaise (CalledProcessError (pip_cmd env) n) /\
  ("lambda-deployment.zip" ∉ d_paths (snd (main env s))) /\
  exists evs, d_trace (snd (main env s)) = d_trace s ++ evs /\
    Forall (fun ev => match ev with
                      | DCopy _ _ | DCopytree _ _ | DZip _ _ => False
                      | _ => True
                      end) evs.
Proof.
  destruct (clean_up_ok env s Hclean) as (P1 & evs1 & Hcl & HP1 & Hev1).
  assert (Hlp : "lambda-package" ∉ P1)
    by (rewrite HP1; intros [H _]; exact (proj1 (remove_tree_package _) H)).
  unfold main. rewrite (dbind_ok _ _ _ _ _ Hcl).
  assert (Hmk : os_makedirs "lambda-package" (mkDState P1 (d_trace s ++ evs1)) =
                (DOk tt, mkDState ({["lambda-package"]} ∪ P1)
                                  ((d_trace s ++ evs1) ++ [DMakedirs "lambda-package"]))).
  { unfold os_makedirs, record. simpl. rewrite bool_decide_eq_false_2 by exact Hlp. reflexivity. }
  rewrite (dbind_ok _ _ _ _ _ Hmk).
  set (s2 := mkDState ({["lambda-package"]} ∪ P1) ((d_trace s ++ evs1) ++ [DMakedirs "lambda-package"])).
  assert (Hw2 : windows_docker_path ∉ d_paths s2 \/
                run_status env [windows_docker_path; "info"] <> Some 0).
  { destruct Hw as [Hw|Hw]; [left|right; exact Hw].
    subst s2. simpl. rewrite elem_of_union, elem_of_singleton, HP1.
    intros [H|[H _]]; [discriminate H|].
    unfold remove_tree in H. apply elem_of_filter in H as [_ H]. exact (Hw H). }
  pose proof (install_without_docker env s2 _ (find_docker_none env s2 Hv Hw2)) as Hi.
  rewrite (run_fail env _ true _ n Hpip Hn) in Hi.
  rewrite (dbind_raise _ _ _ _ _ Hi). simpl.
  split; [reflexivity|split].
  - rewrite elem_of_union, elem_of_singleton, HP1.
    intros [H|[_ H]]; [discriminate H|exact (H eq_refl)].
  - eexists. split; [rewrite <- !app_assoc; reflexivity|].
    apply Forall_app. split.
    + eapply Forall_impl; [exact Hev1|]. intros ev [-> | ->]; exact I.
    + simpl. destruct (bool_decide _); repeat constructor.
Qed.


(** [X13] An old package that cannot be removed stops the build: when
    [shutil.rmtree] is refused and the [sudo rm -rf] fallback exits with
    an error (which is not checked), [os.makedirs("lambda-package")]
    raises [FileExistsError]; no dependency is installed, yet the old
    [lambda-deployment.zip] has already been deleted. *)
Theorem failed_cleanup_aborts (env : DEnv) (s : DState) (n : Z)
    (Hpkg : "lambda-package" ∈ d_paths s) (Hperm : rmtree_allowed env = false)
    (Hsudo : run_status env ["sudo"; "rm"; "-rf"; "lambda-package"] = Some n) (Hn : n <> 0) :
  fst (main env s) = DRaise (FileExistsError "lambda-package") /\
  ("lambda-deployment.zip" ∉ d_paths (snd (main env s))) /\
  d_trace (snd (main env s)) =
    d_trace s ++ [DRun ["sudo"; "rm"; "-rf"; "lambda-package"]] ++
      (if bool_decide ("lambda-deployment.zip" ∈ d_paths s)
       then [DRemove "lambda-deployment.zip"] else []).
Proof.
  set (P1 := if bool_decide ("lambda-deployment.zip" ∈ d_paths s)
             then d_paths s ∖ {["lambda-deployment.zip"]} else d_paths s).
  assert (Hcl : clean_up env s =
                (DOk tt, mkDState P1
                   (d_trace s ++ [DRun ["sudo"; "rm"; "-rf"; "lambda-package"]] ++
                      (if bool_decide ("lambda-deployment.zip" ∈ d_paths s)
                       then [DRemove "lambda-deployment.zip"] else [])))).
  { unfold clean_up, dbind at 1, os_path_exists.
    rewrite bool_decide_eq_true_2 by exact Hpkg.
    unfold dbind at 1, dtry, shutil_rmtree. rewrite Hperm.
    rewrite (run_fail env _ false s n Hsudo Hn).
    unfold dbind, os_path_exists, os_remove, record, dret. simpl.
    unfold P1. destruct (bool_decide _); simpl; [rewrite <- app_assoc|]; reflexivity. }
  assert (HP1 : "lambda-package" ∈ P1 /\ "lambda-deployment.zip" ∉ P1).
  { subst P1. case_bool_decide as Hz.
    - rewrite !elem_of_difference, !elem_of_singleton.
      split; [split; [exact Hpkg|discriminate]|intros [_ H]; exact (H eq_refl)].
    - split; assumption. }
  unfold main. rewrite (dbind_ok _ _ _ _ _ Hcl).
  assert (Hmk : os_makedirs "lambda-package" (mkDState P1 (d_trace s ++
                  [DRun ["sudo"; "rm"; "-rf"; "lambda-package"]] ++
                  (if bool_decide ("lambda-deployment.zip" ∈ d_paths s)
                   then [DRemove "lambda-deployment.zip"] else []))) =
                (DRaise (FileExistsError "lambda-package"), mkDState P1 (d_trace s ++
                  [DRun ["sudo"; "rm"; "-rf"; "lambda-package"]] ++
                  (if bool_decide ("lambda-deployment.zip" ∈ d_paths s)
                   then [DRemove "lambda-deployment.zip"] else [])))).
  { unfold os_makedirs. simpl. rewrite bool_decide_eq_true_2 by exact (proj1 HP1). reflexivity. }
  rewrite (dbind_raise _ _ _ _ _ Hmk). simpl.
  split; [reflexivity|split; [exact (proj2 HP1)|reflexivity]].
Qed.

Lemma install_prefers_docker_witness :
  run_status (demo_denv all_ok true) ["docker"; "--version"] = Some 0 /\
  run_status (demo_denv all_ok true) (docker_argv (demo_denv all_ok true) "docker") <> None /\
  install_dependencies (demo_denv all_ok true) checkout =
    (DOk tt, mkDState (d_paths checkout)
               (d_trace checkout ++ [DRun ["docker"; "--version"];
                                     DRun (docker_argv (demo_denv all_ok true) "docker")])).
Proof.
  assert (H1 : run_status (demo_denv all_ok true) ["docker"; "--version"] = Some 0)
    by reflexivity.
  assert (H2 : run_status (demo_denv all_ok true) (docker_argv (demo_denv all_ok true) "docker")
                 <> None) by discriminate.
  split; [exact H1|split; [exact H2|]].
  exact (install_prefers_docker (demo_denv all_ok true) checkout H1 H2).
Defined.

Lemma install_uses_wsl_docker_witness :
  run_status (demo_denv (no_docker 0) true) ["docker"; "--version"] <> Some 0 /\
  windows_docker_path ∈ d_paths wsl_checkout /\
  run_status (demo_denv (no_docker 0) true) [windows_docker_path; "info"] = Some 0 /\
  run_status (demo_denv (no_docker 0) true)
    (docker_argv (demo_denv (no_docker 0) true) windows_docker_path) <> None /\
  install_dependencies (demo_denv (no_docker 0) true) wsl_checkout =
    (DOk tt, mkDState (d_paths wsl_checkout)
               (d_trace wsl_checkout ++
                  [DRun ["docker"; "--version"]; DRun [windows_docker_path; "info"];
                   DRun (docker_argv (demo_denv (no_docker 0) true) windows_docker_path)])).
Proof.
  assert (H1 : run_status (demo_denv (no_docker 0) true) ["docker"; "--version"] <> Some 0)
    by (vm_compute; discriminate).
  assert (H2 : windows_docker_path ∈ d_paths wsl_checkout)
    by (match goal with |- ?P => apply (bool_decide_eq_true_1 P) end; vm_compute; reflexivity).
  assert (H3 : run_status (demo_denv (no_docker 0) true) [windows_docker_path; "info"] = Some 0)
    by (vm_compute; reflexivity).
  assert (H4 : run_status (demo_denv (no_docker 0) true)
                 (docker_argv (demo_denv (no_docker 0) true) windows_docker_path) <> None)
    by (vm_compute; discriminate).
  split; [exact H1|split; [exact H2|split; [exact H3|split; [exact H4|]]]].
  exact (install_uses_wsl_docker (demo_denv (no_docker 0) true) wsl_checkout H1 H2 H3 H4).
Defined.

Lemma install_falls_back_to_pip_witness :
  run_status (demo_denv (no_docker 0) true) ["docker"; "--version"] <> Some 0 /\
  (windows_docker_path ∉ d_paths checkout \/
   run_status (demo_denv (no_docker 0) true) [windows_docker_path; "info"] <> Some 0) /\
  d_trace (snd (install_dependencies (demo_denv (no_docker 0) true) checkout)) =
    d_trace checkout ++ [DRun ["docker"; "--version"]] ++
      (if bool_decide (windows_docker_path ∈ d_paths checkout)
       then [DRun [windows_docker_path; "info"]] else []) ++
      [DRun (pip_cmd (demo_denv (no_docker 0) true))] /\
  (fst (install_dependencies (demo_denv (no_docker 0) true) checkout) = DOk tt <->
   run_status (demo_denv (no_docker 0) true) (pip_cmd (demo_denv (no_docker 0) true)) = Some 0).
Proof.
  assert (H1 : run_status (demo_denv (no_docker 0) true) ["docker"; "--version"] <> Some 0)
    by (vm_compute; discriminate).
  assert (H2 : windows_docker_path ∉ d_paths checkout \/
               run_status (demo_denv (no_docker 0) true) [windows_docker_path; "info"] <> Some 0).
  { left. match goal with |- ~ ?P => apply (bool_decide_eq_false_1 P) end. vm_compute. reflexivity. }
  split; [exact H1|split; [exact H2|]].
  exact (install_falls_back_to_pip (demo_denv (no_docker 0) true) checkout H1 H2).
Defined.

Lemma docker_failure_skips_pip_witness :
  (("lambda-package" ∈ d_paths rebuilt /\ rmtree_allowed (demo_denv daemon_down true) = true) \/
   remove_tree "lambda-package" (d_paths rebuilt) = d_paths rebuilt) /\
  run_status (demo_denv daemon_down true) ["docker"; "--version"] = Some 0 /\
  run_status (demo_denv daemon_down true) (docker_argv (demo_denv daemon_down true) "docker")
    = Some 125 /\
  125 <> 0 /\
  fst (main (demo_denv daemon_down true) rebuilt) = DOk tt /\
  ("lambda-deployment.zip" ∈ d_paths (snd (main (demo_denv daemon_down true) rebuilt))) /\
  exists evs, d_trace (snd (main (demo_denv daemon_down true) rebuilt)) = d_trace rebuilt ++ evs /\
    DRun (docker_argv (demo_denv daemon_down true) "docker") ∈ evs /\
    DZip "lambda-deployment.zip" "lambda-package" ∈ evs /\
    DRun (pip_cmd (demo_denv daemon_down true)) ∉ evs.
Proof.
  assert (H1 : ("lambda-package" ∈ d_paths rebuilt /\
                rmtree_allowed (demo_denv daemon_down true) = true) \/
               remove_tree "lambda-package" (d_paths rebuilt) = d_paths rebuilt).
  { left. split; [match goal with |- ?P => apply (bool_decide_eq_true_1 P) end; vm_compute; reflexivity|reflexivity]. }
  assert (H2 : run_status (demo_denv daemon_down true) ["docker"; "--version"] = Some 0)
    by (vm_compute; reflexivity).
  assert (H3 : run_status (demo_denv daemon_down true)
                 (docker_argv (demo_denv daemon_down true) "docker") = Some 125)
    by (vm_compute; reflexivity).
  assert (H4 : 125 <> 0) by lia.
  split; [exact H1|split; [exact H2|split; [exact H3|split; [exact H4|]]]].
  exact (docker_failure_skips_pip (demo_denv daemon_down true) rebuilt 125 H1 H2 H3 H4).
Defined.

Lemma pip_failure_aborts_build_witness :
  (("lambda-package" ∈ d_paths rebuilt /\ rmtree_allowed (demo_denv (no_docker 1) true) = true) \/
   remove_tree "lambda-package" (d_paths rebuilt) = d_paths rebuilt) /\
  run_status (demo_denv (no_docker 1) true) ["docker"; "--version"] <> Some 0 /\
  (windows_docker_path ∉ d_paths rebuilt \/
   run_status (demo_denv (no_docker 1) true) [windows_docker_path; "info"] <> Some 0) /\
  run_status (demo_denv (no_docker 1) true) (pip_cmd (demo_denv (no_docker 1) true)) = Some 1 /\
  1 <> 0 /\
  fst (main (demo_denv (no_docker 1) true) rebuilt)
    = DRaise (CalledProcessError (pip_cmd (demo_denv (no_docker 1) true)) 1) /\
  ("lambda-deployment.zip" ∉ d_paths (snd (main (demo_denv (no_docker 1) true) rebuilt))) /\
  exists evs, d_trace (snd (main (demo_denv (no_docker 1) true) rebuilt)) = d_trace rebuilt ++ evs /\
    Forall (fun ev => match ev with
                      | DCopy _ _ | DCopytree _ _ | DZip _ _ => False
                      | _ => True
                      end) evs.
Proof.
  assert (H1 : ("lambda-package" ∈ d_paths rebuilt /\
                rmtree_allowed (demo_denv (no_docker 1) true) = true) \/
               remove_tree "lambda-package" (d_paths rebuilt) = d_paths rebuilt).
  { left. split; [match goal with |- ?P => apply (bool_decide_eq_true_1 P) end; vm_compute; reflexivity|reflexivity]. }
  assert (H2 : run_status (demo_denv (no_docker 1) true) ["docker"; "--version"] <> Some 0)
    by (vm_compute; discriminate).
  assert (H3 : windows_docker_path ∉ d_paths rebuilt \/
               run_status (demo_denv (no_docker 1) true) [windows_docker_path; "info"] <> Some 0).
  { left. match goal with |- ~ ?P => apply (bool_decide_eq_false_1 P) end. vm_compute. reflexivity. }
  assert (H4 : run_status (demo_denv (no_docker 1) true) (pip_cmd (demo_denv (no_docker 1) true))
                 = Some 1) by (vm_compute; reflexivity).
  assert (H5 : 1 <> 0) by lia.
  split; [exact H1|split; [exact H2|split; [exact H3|split; [exact H4|split; [exact H5|]]]]].
  exact (pip_failure_aborts_build (demo_denv (no_docker 1) true) rebuilt 1 H1 H2 H3 H4 H5).
Defined.


Lemma failed_cleanup_aborts_witness :
  ("lambda-package" ∈ d_paths rebuilt) /\ rmtree_allowed (demo_denv (no_docker 1) false) = false /\
  run_status (demo_denv (no_docker 1) false) ["sudo"; "rm"; "-rf"; "lambda-package"] = Some 1 /\
  1 <> 0 /\
  fst (main (demo_denv (no_docker 1) false) rebuilt) = DRaise (FileExistsError "lambda-package") /\
  ("lambda-deployment.zip" ∉ d_paths (snd (main (demo_denv (no_docker 1) false) rebuilt))) /\
  d_trace (snd (main (demo_denv (no_docker 1) false) rebuilt)) =
    d_trace rebuilt ++ [DRun ["sudo"; "rm"; "-rf"; "lambda-package"]] ++
      (if bool_decide ("lambda-deployment.zip" ∈ d_paths rebuilt)
       then [DRemove "lambda-deployment.zip"] else []).
Proof.
  assert (H1 : "lambda-package" ∈ d_paths rebuilt)
    by (match goal with |- ?P => apply (bool_decide_eq_true_1 P) end; vm_compute; reflexivity).
  assert (H2 : rmtree_allowed (demo_denv (no_docker 1) false) = false) by reflexivity.
  assert (H3 : run_status (demo_denv (no_docker 1) false) ["sudo"; "rm"; "-rf"; "lambda-package"]
                 = Some 1) by (vm_compute; reflexivity).
  assert (H4 : 1 <> 0) by lia.
  split; [exact H1|split; [exact H2|split; [exact H3|split; [exact H4|]]]].
  exact (failed_cleanup_aborts (demo_denv (no_docker 1) false) rebuilt 1 H1 H2 H3 H4).
Defined.
